(** * Multi-model reviewer: consensus arbitration and report assembly

    Shallow embedding of
    [skills/multi-model-reviewer/scripts/multi_model_review.py]:
    the arbiter-verdict parser, the vote-counting fallback, the reviewer
    set-up from the configuration and the report built by
    [MultiModelReviewOrchestrator.review].

    Python values that come out of [json.loads] / [yaml.safe_load] are
    modelled by the type [value]; a Python [dict] is an association list in
    insertion order; raised exceptions are the [Raise] case of [res]. *)

From Stdlib Require Import ZArith String Ascii List Bool Lia.
From stdpp Require Import base list strings gmap pretty.

Import ListNotations.
Local Open Scope string_scope.
Local Open Scope list_scope.

(** ** Python values and exceptions *)

(** What [json.loads] can return (numbers restricted to integers: no
    function below computes with a number, and the text of a float is not
    needed by any statement). [VNone] is both JSON [null] and the [None]
    that [dict.get] returns for an absent key. *)
#[warnings="-register-all"]
Inductive value : Type :=
  | VNone
  | VBool (b : bool)
  | VInt (z : Z)
  | VStr (s : string)
  | VList (l : list value)
  | VDict (d : list (string * value)).

(** The exception classes the modelled code can raise or catch. All of them
    are subclasses of [Exception], so [except Exception] catches each
    ([UnicodeEncodeError] is a [ValueError] for Python; no handler of the
    code names [ValueError], so the two are kept apart). *)
Inductive exn : Type :=
  | AttributeError
  | TypeError
  | ValueError
  | KeyError
  | OSError
  | TimeoutError
  | JSONDecodeError
  | UnicodeEncodeError.

Inductive res (A : Type) : Type :=
  | Ok (a : A)
  | Raise (e : exn).
Arguments Ok {A} a.
Arguments Raise {A} e.

Definition bind {A B : Type} (m : res A) (k : A -> res B) : res B :=
  match m with
  | Ok a => k a
  | Raise e => Raise e
  end.

Notation "'do' x <- m ; k" := (bind m (fun x => k))
  (at level 10, x name, m at level 100, k at level 200).

(** [try: m except Exception: h] *)
Definition try_except {A : Type} (m : res A) (h : exn -> res A) : res A :=
  match m with
  | Ok a => Ok a
  | Raise e => h e
  end.

(** A loop [for x in xs: st = body st x] whose body may raise. *)
Fixpoint for_each {S A : Type} (body : S -> A -> res S) (xs : list A) (st : S)
  : res S :=
  match xs with
  | [] => Ok st
  | x :: xs' => do st' <- body st x; for_each body xs' st'
  end.

(** ** Dictionaries *)

(** [d.get(k)] on the association list of a dict: [None] when absent. *)
Fixpoint dict_lookup (d : list (string * value)) (k : string) : option value :=
  match d with
  | [] => None
  | (k', v) :: d' => if String.eqb k' k then Some v else dict_lookup d' k
  end.

(** [d[k] = v]: overwrite in place when the key exists, else add last. *)
Fixpoint dict_set (d : list (string * value)) (k : string) (v : value)
  : list (string * value) :=
  match d with
  | [] => [(k, v)]
  | (k', v') :: d' =>
      if String.eqb k' k then (k', v) :: d' else (k', v') :: dict_set d' k v
  end.

(** [x.get(k, default)]: only a dict has the method; on every other value
    the attribute lookup raises [AttributeError]. *)
Definition py_get (x : value) (k : string) (default : value) : res value :=
  match x with
  | VDict d => Ok (match dict_lookup d k with Some v => v | None => default end)
  | _ => Raise AttributeError
  end.

(** The one-character strings of a string, what iterating a [str] yields. *)
Fixpoint str_chars (s : string) : list value :=
  match s with
  | EmptyString => []
  | String c s' => VStr (String c EmptyString) :: str_chars s'
  end.

(** [for x in v]: a list yields its items, a dict its keys, a string its
    characters; [None], booleans and integers are not iterable. *)
Definition py_iter (v : value) : res (list value) :=
  match v with
  | VList l => Ok l
  | VDict d => Ok (map (fun kv => VStr (fst kv)) d)
  | VStr s => Ok (str_chars s)
  | _ => Raise TypeError
  end.

(** [len(v)] *)
Definition py_len (v : value) : res nat :=
  match v with
  | VList l => Ok (length l)
  | VDict d => Ok (length d)
  | VStr s => Ok (String.length s)
  | _ => Raise TypeError
  end.

(** Truth value of [v] in an [if]. *)
Definition truthy (v : value) : bool :=
  match v with
  | VNone => false
  | VBool b => b
  | VInt z => negb (Z.eqb z 0)
  | VStr s => negb (String.eqb s EmptyString)
  | VList l => negb (Nat.eqb (length l) 0)
  | VDict d => negb (Nat.eqb (length d) 0)
  end.

(** ** Text of a value inside an f-string *)

Definition hex_digit (n : N) : ascii :=
  match n with
  | 0%N => "0" | 1%N => "1" | 2%N => "2" | 3%N => "3" | 4%N => "4"
  | 5%N => "5" | 6%N => "6" | 7%N => "7" | 8%N => "8" | 9%N => "9"
  | 10%N => "a" | 11%N => "b" | 12%N => "c" | 13%N => "d" | 14%N => "e"
  | _ => "f"
  end%char.

Fixpoint str_contains (c : ascii) (s : string) : bool :=
  match s with
  | EmptyString => false
  | String c' s' => Ascii.eqb c c' || str_contains c s'
  end.

Definition backslash : ascii := "092"%char.
Definition single_quote : ascii := "039"%char.
Definition double_quote : ascii := "034"%char.

(** Body of [repr(s)] for the chosen quote character [q]: the quote and
    the backslash are escaped, control characters are written as Python
    writes them, every other byte stands for itself (so does a character
    beyond ASCII; Python escapes those of them that are not printable). *)
Definition repr_char (q c : ascii) : list ascii :=
  let n := N_of_ascii c in
  if Ascii.eqb c q || Ascii.eqb c backslash then [backslash; c]
  else if N.eqb n 9 then [backslash; "t"%char]
  else if N.eqb n 10 then [backslash; "n"%char]
  else if N.eqb n 13 then [backslash; "r"%char]
  else if N.ltb n 32 || N.eqb n 127 then
    [backslash; "x"%char; hex_digit (N.div n 16); hex_digit (N.modulo n 16)]
  else [c].

Fixpoint repr_body (q : ascii) (s : string) : string :=
  match s with
  | EmptyString => EmptyString
  | String c s' => string_of_list_ascii (repr_char q c) +:+ repr_body q s'
  end.

(** [repr(s)] of a string: single quotes unless the text has a single quote
    and no double quote. *)
Definition repr_str (s : string) : string :=
  let q := if str_contains single_quote s && negb (str_contains double_quote s)
           then double_quote else single_quote in
  String q (repr_body q s +:+ String q EmptyString).

Definition join_comma (l : list string) : string :=
  String.concat ", " l.

(** [repr(v)]: what a container shows for each of its items. *)
Fixpoint py_repr (v : value) : string :=
  match v with
  | VNone => "None"
  | VBool true => "True"
  | VBool false => "False"
  | VInt z => pretty z
  | VStr s => repr_str s
  | VList l => "[" +:+ join_comma (map py_repr l) +:+ "]"
  | VDict d =>
      "{" +:+ join_comma (map (fun kv => repr_str (fst kv) +:+ ": " +:+ py_repr (snd kv)) d)
          +:+ "}"
  end.

(** [f"{v}"], i.e. [str(v)]: a string is inserted as it is, every other
    value as its [repr]. *)
Definition py_str (v : value) : string :=
  match v with
  | VStr s => s
  | _ => py_repr v
  end.

(** [f"{n:03d}"]: decimal, padded with zeros to at least three digits. *)
Definition fmt_03d (n : nat) : string :=
  let s := pretty n in
  match String.length s with
  | 0 => "000" +:+ s
  | 1 => "00" +:+ s
  | 2 => "0" +:+ s
  | _ => s
  end.

(** ** Data model *)

Inductive Severity : Type := ERROR | WARNING | INFO.

Inductive IssueType : Type :=
  | SPEC_PROGRAM_MISMATCH
  | PROGRAM_TEST_GAP
  | TEST_SPEC_MISMATCH
  | METADATA_MISMATCH.

Global Instance Severity_eq_dec : EqDecision Severity.
Proof. solve_decision. Defined.

Global Instance IssueType_eq_dec : EqDecision IssueType.
Proof. solve_decision. Defined.

Definition Severity_value (s : Severity) : string :=
  match s with
  | ERROR => "error"
  | WARNING => "warning"
  | INFO => "info"
  end.

Definition IssueType_value (t : IssueType) : string :=
  match t with
  | SPEC_PROGRAM_MISMATCH => "spec_program_mismatch"
  | PROGRAM_TEST_GAP => "program_test_gap"
  | TEST_SPEC_MISMATCH => "test_spec_mismatch"
  | METADATA_MISMATCH => "metadata_mismatch"
  end.

(** [IssueType(v)]: the member whose value equals [v]; any other argument,
    a string or not, raises [ValueError]. *)
Definition IssueType_of (v : value) : res IssueType :=
  match v with
  | VStr s =>
      if String.eqb s "spec_program_mismatch" then Ok SPEC_PROGRAM_MISMATCH
      else if String.eqb s "program_test_gap" then Ok PROGRAM_TEST_GAP
      else if String.eqb s "test_spec_mismatch" then Ok TEST_SPEC_MISMATCH
      else if String.eqb s "metadata_mismatch" then Ok METADATA_MISMATCH
      else Raise ValueError
  | _ => Raise ValueError
  end.

(** The dataclass [ReviewIssue]. The annotations of a dataclass are not
    checked when an instance is built, so the fields filled from a response
    hold whatever value the response had; [VNone] is the default [None]. *)
Record ReviewIssue : Type := mkReviewIssue {
  id : string;
  severity : Severity;
  issue_type : IssueType;
  description : value;
  detected_by : value;
  spec_location : value;
  program_location : value;
  test_location : value;
  spec_content : value;
  program_content : value;
  suggested_fix : value;
  confidence : string
}.

Record ReviewReport : Type := mkReviewReport {
  timestamp : string;
  spec_dir : string;
  total_checks : Z;
  passed : Z;
  warnings : Z;
  errors : Z;
  issues : list ReviewIssue
}.

(** What a reviewer's [review] returns: [{"model": name, "error": reason}]
    or [{"model": name, "findings": parsed_response}]. *)
Inductive finding : Type :=
  | with_error (model : string) (error : string)
  | with_findings (model : string) (findings : value).

Definition issue_label (issue_id : nat) : string :=
  "ISSUE-" +:+ fmt_03d issue_id.

(** ** ClaudeReviewer._parse_arbiter_result *)

(** The [ReviewIssue(...)] built for one entry of [confirmed_issues]. *)
Definition confirmed_issue (issue_id : nat) (item : value) : res ReviewIssue :=
  do t <- py_get item "type" (VStr "spec_program_mismatch");
  do ty <- IssueType_of t;
  do descr <- py_get item "description" (VStr EmptyString);
  do by_ <- py_get item "detected_by" (VList []);
  do sloc <- py_get item "spec_location" VNone;
  do ploc <- py_get item "program_location" VNone;
  do fix_ <- py_get item "suggested_fix" VNone;
  Ok {| id := issue_label issue_id;
        severity := ERROR;
        issue_type := ty;
        description := descr;
        detected_by := by_;
        spec_location := sloc;
        program_location := ploc;
        test_location := VNone;
        spec_content := VNone;
        program_content := VNone;
        suggested_fix := fix_;
        confidence := "high" |}.

(** The [ReviewIssue(...)] built for one entry of [warnings]. *)
Definition warning_issue (issue_id : nat) (item : value) : res ReviewIssue :=
  do t <- py_get item "type" (VStr "spec_program_mismatch");
  do ty <- IssueType_of t;
  do descr <- py_get item "description" (VStr EmptyString);
  do by_ <- py_get item "detected_by" (VList []);
  Ok {| id := issue_label issue_id;
        severity := WARNING;
        issue_type := ty;
        description := descr;
        detected_by := by_;
        spec_location := VNone;
        program_location := VNone;
        test_location := VNone;
        spec_content := VNone;
        program_content := VNone;
        suggested_fix := VNone;
        confidence := "medium" |}.

(** One turn of a loop that appends an issue and advances [issue_id]. *)
Definition append_issue (mk : nat -> value -> res ReviewIssue)
    (st : list ReviewIssue * nat) (item : value) : res (list ReviewIssue * nat) :=
  do i <- mk (snd st) item;
  Ok (fst st ++ [i], S (snd st)).

Definition _parse_arbiter_result (result : value) : res (list ReviewIssue) :=
  do confirmed <- py_get result "confirmed_issues" (VList []);
  do citems <- py_iter confirmed;
  do st1 <- for_each (append_issue confirmed_issue) citems ([], 1);
  do warns <- py_get result "warnings" (VList []);
  do witems <- py_iter warns;
  do st2 <- for_each (append_issue warning_issue) witems st1;
  Ok (fst st2).

(** ** ClaudeReviewer._consensus_filter *)

(** [issue_votes] is iterated, so its insertion order is kept;
    [issue_details] is only looked up. *)
Record tally : Type := mkTally {
  issue_votes : list (string * list string);
  issue_details : gmap string value
}.

Definition empty_tally : tally :=
  {| issue_votes := []; issue_details := ∅ |}.

(** [key in issue_votes] *)
Fixpoint votes_mem (key : string) (votes : list (string * list string)) : bool :=
  match votes with
  | [] => false
  | (k, _) :: rest => String.eqb k key || votes_mem key rest
  end.

(** [issue_votes[key].append(model)] for a key that is present. *)
Fixpoint votes_append (key model : string) (votes : list (string * list string))
  : list (string * list string) :=
  match votes with
  | [] => []
  | (k, voters) :: rest =>
      if String.eqb k key then (k, voters ++ [model]) :: rest
      else (k, voters) :: votes_append key model rest
  end.

(** [f"{issue.get('type')}:{issue.get('location')}"] *)
Definition issue_key (issue : value) : res string :=
  do t <- py_get issue "type" VNone;
  do l <- py_get issue "location" VNone;
  Ok (py_str t +:+ ":" +:+ py_str l).

(** Body of the inner loop: one reported issue of [model]. *)
Definition record_vote (model : string) (st : tally) (issue : value) : res tally :=
  do key <- issue_key issue;
  let st' :=
    if votes_mem key (issue_votes st) then st
    else {| issue_votes := issue_votes st ++ [(key, [])];
            issue_details := <[key := issue]> (issue_details st) |} in
  Ok {| issue_votes := votes_append key model (issue_votes st');
        issue_details := issue_details st' |}.

(** Body of the outer loop: one reviewer's result. *)
Definition tally_finding (st : tally) (f : finding) : res tally :=
  match f with
  | with_error _ _ => Ok st
  | with_findings model fs =>
      do reported <- py_get fs "issues" (VList []);
      do items <- py_iter reported;
      for_each (record_vote model) items st
  end.

Definition consensus_issue (issue_id : nat) (sev : Severity) (conf : string)
    (details : value) (voters : list string) : res ReviewIssue :=
  do t <- py_get details "type" (VStr "spec_program_mismatch");
  do ty <- IssueType_of t;
  do descr <- py_get details "description" (VStr EmptyString);
  Ok {| id := issue_label issue_id;
        severity := sev;
        issue_type := ty;
        description := descr;
        detected_by := VList (map VStr voters);
        spec_location := VNone;
        program_location := VNone;
        test_location := VNone;
        spec_content := VNone;
        program_content := VNone;
        suggested_fix := VNone;
        confidence := conf |}.

(** Body of the second loop, over [issue_votes.items()]. *)
Definition emit (details : gmap string value) (st : list ReviewIssue * nat)
    (kv : string * list string) : res (list ReviewIssue * nat) :=
  match details !! fst kv with
  | None => Raise KeyError
  | Some d =>
      if Nat.leb 3 (length (snd kv)) then
        do i <- consensus_issue (snd st) ERROR "high" d (snd kv);
        Ok (fst st ++ [i], S (snd st))
      else if Nat.eqb (length (snd kv)) 2 then
        do i <- consensus_issue (snd st) WARNING "medium" d (snd kv);
        Ok (fst st ++ [i], S (snd st))
      else Ok st
  end.

Definition _consensus_filter (all_findings : list finding) : res (list ReviewIssue) :=
  do t <- for_each tally_finding all_findings empty_tally;
  do st <- for_each (emit (issue_details t)) (issue_votes t) ([], 1);
  Ok (fst st).

(** ** ClaudeReviewer.filter_false_positives *)

(** [arbiter_reply] is what the arbiter's command line call and the
    [json.loads] of its output give: a parsed value, or the exception of a
    missing executable, a time-out or unparsable output. Everything raised
    inside the [try], the parse of the verdict included, is caught and
    answered by the vote count. *)
Definition filter_false_positives (arbiter_reply : res value)
    (all_findings : list finding) : res (list ReviewIssue) :=
  try_except
    (do result <- arbiter_reply; _parse_arbiter_result result)
    (fun _ => _consensus_filter all_findings).

(** ** MultiModelReviewOrchestrator *)

(** A reviewer as the orchestrator sees it: its name and the [enabled] flag
    computed by its availability probe when it is built. *)
Record ModelReviewer : Type := mkModelReviewer {
  name : string;
  enabled : bool
}.

(** Outcome of one enabled reviewer's call: the reason of the exception it
    caught, or the parsed response. *)
Inductive reply : Type :=
  | failed (reason : string)
  | answered (response : value).

(** [reviewer.review(prompt, context)] *)
Definition reviewer_review (r : ModelReviewer) (rep : reply) : finding :=
  match rep with
  | failed reason => with_error (name r) reason
  | answered response => with_findings (name r) response
  end.

Definition default_config : value :=
  VDict [
    ("models", VDict [
       ("chatgpt", VDict [("enabled", VBool true)]);
       ("gemini", VDict [("enabled", VBool true)]);
       ("codex", VDict [("enabled", VBool true)]);
       ("qwen", VDict [("enabled", VBool true)]);
       ("claude", VDict [("enabled", VBool true)])]);
    ("consensus", VDict [
       ("error_threshold", VInt 3);
       ("warning_threshold", VInt 2)])].

(** [config_file] is the parsed content of the file at [config_path] when a
    path is given and the file exists. *)
Definition _load_config (config_file : option value) : value :=
  match config_file with
  | Some loaded => loaded
  | None => default_config
  end.

(** [models.get(n, {}).get("enabled", True)] as an [if] condition. *)
Definition model_enabled (models : value) (n : string) : res bool :=
  do m <- py_get models n (VDict []);
  do e <- py_get m "enabled" (VBool true);
  Ok (truthy e).

(** One of the five [if ...: reviewers.append(...)]; [available n] is the
    result of the availability probe of backend [n]. *)
Definition add_reviewer (available : string -> bool) (models : value)
    (reviewers : list ModelReviewer) (n : string) : res (list ModelReviewer) :=
  do on <- model_enabled models n;
  Ok (if on then reviewers ++ [{| name := n; enabled := available n |}]
      else reviewers).

Definition reviewer_names : list string :=
  ["chatgpt"; "gemini"; "codex"; "qwen"; "claude"].

Definition _init_reviewers (config : value) (available : string -> bool)
  : res (list ModelReviewer) :=
  do models <- py_get config "models" (VDict []);
  for_each (add_reviewer available models) reviewer_names [].

Record MultiModelReviewOrchestrator : Type := mkOrchestrator {
  config : value;
  reviewers : list ModelReviewer
}.

(** [MultiModelReviewOrchestrator.__init__] *)
Definition orchestrator_init (config_file : option value)
    (available : string -> bool) : res MultiModelReviewOrchestrator :=
  let cfg := _load_config config_file in
  do rs <- _init_reviewers cfg available;
  Ok {| config := cfg; reviewers := rs |}.

(** The status line of one result: [len] of the reported issues. *)
Definition model_status (_ : unit) (f : finding) : res unit :=
  match f with
  | with_error _ _ => Ok tt
  | with_findings _ fs =>
      do reported <- py_get fs "issues" (VList []);
      do issue_count <- py_len reported;
      Ok tt
  end.

(** [sum(1 for i in issues if i.severity == s)] *)
Fixpoint count_severity (s : Severity) (l : list ReviewIssue) : Z :=
  match l with
  | [] => 0
  | i :: rest => (if decide (severity i = s) then 1 else 0) + count_severity s rest
  end%Z.

(** [report.passed = v] *)
Definition set_passed (r : ReviewReport) (v : Z) : ReviewReport :=
  {| timestamp := timestamp r;
     spec_dir := spec_dir r;
     total_checks := total_checks r;
     passed := v;
     warnings := warnings r;
     errors := errors r;
     issues := issues r |}.

(** Step 6 of [review]. *)
Definition build_report (now dir : string) (n_reviewers : nat)
    (found : list ReviewIssue) : ReviewReport :=
  let report :=
    {| timestamp := now;
       spec_dir := dir;
       total_checks := Z.of_nat n_reviewers * 10;
       passed := 0;
       warnings := count_severity WARNING found;
       errors := count_severity ERROR found;
       issues := found |} in
  set_passed report (total_checks report - warnings report - errors report)%Z.

(** Step 3 of [review]: one call per enabled reviewer, the results gathered
    in the order of the reviewers. *)
Definition dispatch (self : MultiModelReviewOrchestrator)
    (replies : string -> reply) : list finding :=
  map (fun r => reviewer_review r (replies (name r)))
      (filter (fun r => enabled r = true) (reviewers self)).

(** [MultiModelReviewOrchestrator.review], from step 3 on (the collection
    of the artifacts and the prompt text belong to the collector).
    [replies n] is the outcome of reviewer [n]'s call, [arbiter_reply] the
    outcome of the arbiter's, [now] the text of [datetime.now().isoformat()]. *)
Definition review (self : MultiModelReviewOrchestrator) (replies : string -> reply)
    (arbiter_reply : res value) (now dir : string) : res ReviewReport :=
  let all_findings := dispatch self replies in
  do _ <- for_each model_status all_findings tt;
  do found <- filter_false_positives arbiter_reply all_findings;
  Ok (build_report now dir (length (reviewers self)) found).

(** [args.models.split(",")]: the pieces between the commas, empty pieces
    included; a text without comma is its one piece. *)
Fixpoint split_comma (s : string) : list string :=
  match s with
  | EmptyString => [EmptyString]
  | String c s' =>
      if Ascii.eqb c "," then EmptyString :: split_comma s'
      else match split_comma s' with
           | piece :: more => String c piece :: more
           | [] => [String c EmptyString]
           end
  end.

(** [main]: build the orchestrator, keep the reviewers named by [--models]
    when the option is given and its text is not empty ([if args.models:]),
    run the review. [models_arg] is [args.models]: [None] without the
    option. *)
Definition main (config_file : option value) (models_arg : option string)
    (available : string -> bool) (replies : string -> reply)
    (arbiter_reply : res value) (now dir : string) : res ReviewReport :=
  do orchestrator <- orchestrator_init config_file available;
  let selected :=
    match models_arg with
    | Some models =>
        if truthy (VStr models) then
          let enabled_models := split_comma models in
          {| config := config orchestrator;
             reviewers := filter (fun r => name r ∈ enabled_models)
                                 (reviewers orchestrator) |}
        else orchestrator
    | None => orchestrator
    end in
  review selected replies arbiter_reply now dir.

(** ** Sample runs *)

Definition raw (ty loc descr : string) : value :=
  VDict [("type", VStr ty); ("location", VStr loc); ("description", VStr descr)].

Definition response (reported : list value) : value :=
  VDict [("issues", VList reported)].

Definition order_total : value :=
  raw "spec_program_mismatch" "Order#total" "total is not recomputed".

Definition order_cancel : value :=
  raw "program_test_gap" "Order#cancel" "cancel has no test".

(** Agents A, B and C agree on Order#total, D alone reports Order#cancel. *)
Definition scenario : list finding :=
  [with_findings "A" (response [order_total]);
   with_findings "B" (response [order_total]);
   with_findings "C" (response [order_total]);
   with_findings "D" (response [order_cancel])].

(** ** Reading the loops as lists *)

(** The results of [f] on each item in turn; the first exception ends it. *)
Fixpoint map_res {A B : Type} (f : A -> res B) (l : list A) : res (list B) :=
  match l with
  | [] => Ok []
  | x :: rest =>
      do y <- f x;
      do ys <- map_res f rest;
      Ok (y :: ys)
  end.

(** The issues that a loop over [items] appends when [issue_id] starts at
    [n]: item number [j] is built with identifier [n + j]. *)
Fixpoint build_from (mk : nat -> value -> res ReviewIssue) (n : nat)
    (items : list value) : res (list ReviewIssue) :=
  match items with
  | [] => Ok []
  | item :: rest =>
      do i <- mk n item;
      do more <- build_from mk (S n) rest;
      Ok (i :: more)
  end.

(** The entries of one group of the arbiter's verdict. *)
Definition verdict_group (result : value) (group : string) : res (list value) :=
  do g <- py_get result group (VList []);
  py_iter g.

(** One raw finding as the first loop of the vote count meets it. *)
Record report : Type := mkReport {
  r_key : string;
  r_model : string;
  r_issue : value
}.

Definition report_of (model : string) (issue : value) : res report :=
  do key <- issue_key issue;
  Ok {| r_key := key; r_model := model; r_issue := issue |}.

Definition reports_of (f : finding) : res (list report) :=
  match f with
  | with_error _ _ => Ok []
  | with_findings model fs =>
      do reported <- py_get fs "issues" (VList []);
      do items <- py_iter reported;
      map_res (report_of model) items
  end.

(** Every raw finding of every result, in the order of the results. *)
Definition all_reports (all_findings : list finding) : res (list report) :=
  do per_result <- map_res reports_of all_findings;
  Ok (concat per_result).

(** The result [f] is a response of [model], and [issue] is one of the raw
    findings that the first loop of the vote count reads in it. *)
Definition reported_in (f : finding) (model : string) (issue : value) : Prop :=
  exists fs reported items,
    f = with_findings model fs /\
    py_get fs "issues" (VList []) = Ok reported /\
    py_iter reported = Ok items /\
    issue ∈ items.

Definition reports_for (key : string) (rs : list report) : list report :=
  filter (fun r => r_key r = key) rs.

(** The names of the reviewers behind the reports of [key], one per report. *)
Definition voters_of (key : string) (rs : list report) : list string :=
  r_model <$> reports_for key rs.

(** The raw finding of the first report of [key]. *)
Definition first_issue (key : string) (rs : list report) : option value :=
  r_issue <$> head (reports_for key rs).

(** The pure step behind [record_vote]. *)
Definition add_vote (st : tally) (r : report) : tally :=
  let st' :=
    if votes_mem (r_key r) (issue_votes st) then st
    else {| issue_votes := issue_votes st ++ [(r_key r, [])];
            issue_details := <[r_key r := r_issue r]> (issue_details st) |} in
  {| issue_votes := votes_append (r_key r) (r_model r) (issue_votes st');
     issue_details := issue_details st' |}.

(** What the two dictionaries hold after the reports [rs]. *)
Record tally_ok (st : tally) (rs : list report) : Prop := mkTallyOk {
  votes_nodup : NoDup (issue_votes st).*1;
  votes_voters : forall k vs, (k, vs) ∈ issue_votes st -> vs = voters_of k rs;
  votes_keys : forall k, k ∈ (issue_votes st).*1 <-> reports_for k rs ≠ [];
  details_first : forall k, issue_details st !! k = first_issue k rs
}.

(** Severity and confidence of an entry with [n] votes, if it is kept. *)
Definition rating (n : nat) : option (Severity * string) :=
  if Nat.leb 3 n then Some (ERROR, "high")
  else if Nat.eqb n 2 then Some (WARNING, "medium")
  else None.

(** The issue of one kept entry. *)
Definition issue_of (details : gmap string value) (kv : string * list string)
    (i : ReviewIssue) : Prop :=
  exists d sev conf n,
    details !! kv.1 = Some d /\
    rating (length kv.2) = Some (sev, conf) /\
    consensus_issue n sev conf d kv.2 = Ok i.

(** The issue of a key that is kept, in terms of the reports. *)
Definition kept_issue (rs : list report) (k : string) (i : ReviewIssue) : Prop :=
  exists first sev conf n,
    first_issue k rs = Some first /\
    rating (length (voters_of k rs)) = Some (sev, conf) /\
    consensus_issue n sev conf first (voters_of k rs) = Ok i.

(** [report.timestamp = now] *)
Definition set_timestamp (r : ReviewReport) (now : string) : ReviewReport :=
  {| timestamp := now;
     spec_dir := spec_dir r;
     total_checks := total_checks r;
     passed := passed r;
     warnings := warnings r;
     errors := errors r;
     issues := issues r |}.

(** ** More sample data *)

(** The claude command is not installed: its reviewer is built but not
    dispatched, and the arbiter's call raises. *)
Definition no_claude (n : string) : bool :=
  negb (String.eqb n "claude").

Definition scenario_replies (n : string) : reply :=
  if String.eqb n "qwen" then answered (response [order_cancel])
  else answered (response [order_total]).

Definition scenario_orchestrator : MultiModelReviewOrchestrator :=
  {| config := default_config;
     reviewers :=
       [ {| name := "chatgpt"; enabled := true |};
         {| name := "gemini"; enabled := true |};
         {| name := "codex"; enabled := true |};
         {| name := "qwen"; enabled := true |};
         {| name := "claude"; enabled := false |} ] |}.

(** A verdict whose two groups both carry a fix and locations. *)
Definition entry (ty descr fix_ sloc ploc : string) : value :=
  VDict [("type", VStr ty); ("description", VStr descr);
         ("detected_by", VList [VStr "chatgpt"; VStr "gemini"]);
         ("suggested_fix", VStr fix_);
         ("spec_location", VStr sloc);
         ("program_location", VStr ploc)].

Definition sample_verdict : value :=
  VDict [
    ("confirmed_issues",
       VList [entry "spec_program_mismatch" "total is not recomputed"
                "recompute on change" "order.yaml#total" "Order.java#total"]);
    ("warnings",
       VList [entry "program_test_gap" "cancel has no test"
                "add a test" "order.yaml#cancel" "Order.java#cancel"]);
    ("discarded_as_false_positive", VList [])].

(** All the entries of a verdict that become issues, confirmed ones first. *)
Definition verdict_items (result : value) : res (list value) :=
  do citems <- verdict_group result "confirmed_issues";
  do witems <- verdict_group result "warnings";
  Ok (citems ++ witems).

(** One reviewer reports two different problems of the same type at the
    same place; nobody else reports anything there. *)
Definition one_agent_twice : list finding :=
  [with_findings "chatgpt"
     (response [raw "spec_program_mismatch" "Order#total" "total is not recomputed";
                raw "spec_program_mismatch" "Order#total" "total ignores discounts"]);
   with_findings "gemini" (response []);
   with_findings "codex" (response [])].

(** Two reviewers use a type name that is not a member of [IssueType]. *)
Definition design_smell : value :=
  raw "design_smell" "Order#total" "total is computed in two places".

Definition smell_replies (n : string) : reply :=
  if String.eqb n "chatgpt" || String.eqb n "gemini"
  then answered (response [design_smell])
  else answered (response []).

(** One reviewer answers with a JSON array instead of an object. *)
Definition array_replies (n : string) : reply :=
  if String.eqb n "gemini" then answered (VList [order_total])
  else answered (response []).

Definition smell_verdict : value :=
  VDict [("confirmed_issues", VList [design_smell]);
         ("warnings", VList []);
         ("discarded_as_false_positive", VList [])].

(** A raw finding without a location. *)
Definition no_location (ty descr : string) : value :=
  VDict [("type", VStr ty); ("description", VStr descr)].

Definition untyped_fields : list (string * value) :=
  [("location", VStr "Order#total"); ("description", VStr "total is not recomputed")].

Definition smell_fields : list (string * value) :=
  [("type", VStr "design_smell"); ("location", VStr "Order#total");
   ("description", VStr "total is computed in two places")].

(** Twenty-one findings that two reviewers both report. *)
Definition shared_findings : list value :=
  map (fun n => raw "spec_program_mismatch" ("Order#line" +:+ pretty n) "line differs")
      (seq 1 21).

Definition shared_replies (_ : string) : reply :=
  answered (response shared_findings).

Definition two_reviewers : MultiModelReviewOrchestrator :=
  {| config := default_config;
     reviewers := [ {| name := "chatgpt"; enabled := true |};
                    {| name := "gemini"; enabled := true |} ] |}.

(** The constraint that the specification puts on the thresholds of a
    configuration: both are integers and
    [error_threshold > warning_threshold >= 1]. *)
Definition thresholds_valid (cfg : value) : bool :=
  match py_get cfg "consensus" VNone with
  | Ok (VDict c) =>
      match dict_lookup c "error_threshold", dict_lookup c "warning_threshold" with
      | Some (VInt e), Some (VInt w) => Z.ltb w e && Z.leb 1 w
      | _, _ => false
      end
  | _ => false
  end.

(** A configuration file whose thresholds are the wrong way round. *)
Definition inverted_config : value :=
  VDict [
    ("models", VDict [
       ("chatgpt", VDict [("enabled", VBool true)]);
       ("gemini", VDict [("enabled", VBool true)]);
       ("codex", VDict [("enabled", VBool true)]);
       ("qwen", VDict [("enabled", VBool true)]);
       ("claude", VDict [("enabled", VBool true)])]);
    ("consensus", VDict [
       ("error_threshold", VInt 1);
       ("warning_threshold", VInt 5)])].




(** ** Well-formed entries and first-seen order *)

(** An entry from which a [ReviewIssue] can be built: a dict whose [type],
    when present, is the value of a member of [IssueType]. *)
Definition well_formed_entry (item : value) : bool :=
  match item with
  | VDict d =>
      match dict_lookup d "type" with
      | None => true
      | Some t => match IssueType_of t with Ok _ => true | Raise _ => false end
      end
  | _ => false
  end.

(** The distinct elements of a list, each at the place of its first
    occurrence. *)
Fixpoint first_seen (l : list string) : list string :=
  match l with
  | [] => []
  | k :: rest => k :: filter (fun k' => k' <> k) (first_seen rest)
  end.

(** A result that is not an error. *)
Definition has_findings (f : finding) : bool :=
  match f with
  | with_error _ _ => false
  | with_findings _ _ => true
  end.

Definition is_dict (v : value) : bool :=
  match v with
  | VDict _ => true
  | _ => false
  end.

(** A result whose raw findings the first loop of the vote count can read:
    an error, or a response that is a dict whose [issues], when iterated,
    gives dicts only. *)
Definition readable (f : finding) : bool :=
  match f with
  | with_error _ _ => true
  | with_findings _ v =>
      match py_get v "issues" (VList []) with
      | Ok reported =>
          match py_iter reported with
          | Ok items => forallb is_dict items
          | Raise _ => false
          end
      | Raise _ => false
      end
  end.

(** [report.total_checks] and [report.passed] raised by [n]. *)
Definition more_checks (r : ReviewReport) (n : Z) : ReviewReport :=
  {| timestamp := timestamp r;
     spec_dir := spec_dir r;
     total_checks := total_checks r + n;
     passed := passed r + n;
     warnings := warnings r;
     errors := errors r;
     issues := issues r |}.

(** ** print_report and the end of main *)

(** Number of characters of a UTF-8 text: the bytes that do not continue a
    character (those not of the form 10xxxxxx). *)
Definition starts_char (c : ascii) : bool :=
  negb (N.eqb (N.land (N_of_ascii c) 192) 128).

Fixpoint utf8_length (s : string) : nat :=
  match s with
  | EmptyString => 0
  | String c s' => (if starts_char c then 1 else 0) + utf8_length s'
  end.

(** [s[:n]]: the first [n] characters of a UTF-8 text. *)
Fixpoint utf8_take (n : nat) (s : string) : string :=
  match s with
  | EmptyString => EmptyString
  | String c s' =>
      if starts_char c then
        match n with
        | 0 => EmptyString
        | S n' => String c (utf8_take n' s')
        end
      else String c (utf8_take n s')
  end.

Fixpoint spaces (n : nat) : string :=
  match n with
  | 0 => EmptyString
  | S n' => String " " (spaces n')
  end.

(** [f"{s:<w}"]: [s] followed by spaces up to [w] characters. *)
Definition ljust (w : nat) (s : string) : string :=
  s +:+ spaces (w - utf8_length s).

Definition newline : string := String "010" EmptyString.

(** [', '.join(v)]: the items of a list must all be strings; a string gives
    its characters, a dict its keys; nothing else can be iterated. *)
Fixpoint strings_of (l : list value) : res (list string) :=
  match l with
  | [] => Ok []
  | VStr s :: rest => do more <- strings_of rest; Ok (s :: more)
  | _ :: _ => Raise TypeError
  end.

(** The characters of a UTF-8 text, each with its continuation bytes. *)
Fixpoint utf8_chars (s : string) : list string :=
  match s with
  | EmptyString => []
  | String c s' =>
      match utf8_chars s' with
      | String c' rest :: more =>
          if starts_char c' then String c EmptyString :: String c' rest :: more
          else String c (String c' rest) :: more
      | _ => [String c EmptyString]
      end
  end.

Definition py_join (sep : string) (v : value) : res string :=
  match v with
  | VList l => do texts <- strings_of l; Ok (String.concat sep texts)
  | VStr s => Ok (String.concat sep (utf8_chars s))
  | VDict d => Ok (String.concat sep (fst <$> d))
  | _ => Raise TypeError
  end.

(** [v[:100]]: a string or a list can be sliced; an integer or a boolean is
    not subscriptable and a dict takes no slice as a key ([TypeError], from
    Python 3.12 on [KeyError] for the dict); [None] as well. *)
Definition py_slice_100 (v : value) : res value :=
  match v with
  | VStr s => Ok (VStr (utf8_take 100 s))
  | VList l => Ok (VList (take 100 l))
  | _ => Raise TypeError
  end.

(** The [status] of [print_report]. *)
Definition report_status (report : ReviewReport) : string :=
  if Z.eqb (errors report) 0 && Z.eqb (warnings report) 0 then "✅ PASS"
  else if Z.eqb (errors report) 0 then "⚠️ CONDITIONAL PASS"
  else "❌ FAILED".

(** The text of the first [print] of [print_report]. *)
Definition report_box (report : ReviewReport) : string :=
  String.concat newline [
    EmptyString;
    "╔═══════════════════════════════════════════════════════════════════╗";
    "║            MULTI-MODEL REVIEW REPORT                               ║";
    "╠═══════════════════════════════════════════════════════════════════╣";
    "║ Timestamp: " +:+ ljust 54 (timestamp report) +:+ " ║";
    "║ Spec Dir:  " +:+ ljust 54 (spec_dir report) +:+ " ║";
    "╠═══════════════════════════════════════════════════════════════════╣";
    "║ Total Checks: " +:+ ljust 51 (pretty (total_checks report)) +:+ " ║";
    "║ Passed:       " +:+ ljust 51 (pretty (passed report)) +:+ " ║";
    "║ Warnings:     " +:+ ljust 51 (pretty (warnings report)) +:+ " ║";
    "║ Errors:       " +:+ ljust 51 (pretty (errors report)) +:+ " ║";
    "╠═══════════════════════════════════════════════════════════════════╣";
    "║ Status: " +:+ ljust 57 (report_status report) +:+ " ║";
    "╚═══════════════════════════════════════════════════════════════════╝";
    EmptyString ].

(** The texts printed for one issue, in the order of the [print] calls: each
    text is built, then written, before the next one is built. [print(text)]
    writes to [sys.stdout], whose encoder may refuse the text: [stdout text]
    is the outcome of that write, [Ok] or the exception that leaves
    [print]. *)
Definition print_issue (stdout : string -> res unit) (issue : ReviewIssue)
  : res (list string) :=
  let icon := if decide (severity issue = ERROR) then "❌" else "⚠️" in
  let head :=
    "  " +:+ icon +:+ " [" +:+ id issue +:+ "] " +:+ py_str (description issue) in
  do _ <- stdout head;
  let type_line := "      Type: " +:+ IssueType_value (issue_type issue) in
  do _ <- stdout type_line;
  do names <- py_join ", " (detected_by issue);
  let by_line := "      Detected by: " +:+ names in
  do _ <- stdout by_line;
  let confidence_line := "      Confidence: " +:+ confidence issue in
  do _ <- stdout confidence_line;
  do fix_line <-
    (if truthy (suggested_fix issue) then
       do cut <- py_slice_100 (suggested_fix issue);
       let text := "      Fix: " +:+ py_str cut +:+ "..." in
       do _ <- stdout text;
       Ok [text]
     else Ok []);
  do _ <- stdout EmptyString;
  Ok ([head; type_line; by_line; confidence_line] ++ fix_line ++ [EmptyString]).

(** [print_report]: the texts of its [print] calls, or the exception that
    ends it. *)
Definition print_report (stdout : string -> res unit) (report : ReviewReport)
  : res (list string) :=
  let box := report_box report in
  do _ <- stdout box;
  match issues report with
  | [] => Ok [box]
  | _ =>
      let heading := newline +:+ "📋 ISSUES:" +:+ newline in
      do _ <- stdout heading;
      do blocks <- map_res (print_issue stdout) (issues report);
      Ok (box :: heading :: concat blocks)
  end.

(** A stream that takes every text. *)
Definition takes_all (text : string) : res unit := Ok tt.

(** A text is held as the bytes of its UTF-8 form; a lone surrogate, which
    [json.loads] takes from an escape such as [\ud83d], is held as the three
    bytes 0xED, 0xA0 to 0xBF, 0x80 to 0xBF. *)
Fixpoint has_surrogate (s : string) : bool :=
  match s with
  | EmptyString => false
  | String c1 s' =>
      match s' with
      | EmptyString => false
      | String c2 _ =>
          (N.eqb (N_of_ascii c1) 237 && N.leb 160 (N_of_ascii c2)
           && N.leb (N_of_ascii c2) 191)
          || has_surrogate s'
      end
  end.

(** The text of the JSON string ["\ud83d"]. *)
Definition lone_surrogate : string :=
  String "237" (String "160" (String "189" EmptyString)).

(** A UTF-8 stream with the [strict] error handler, the default of
    [sys.stdout]: it refuses a text that holds a lone surrogate. *)
Definition utf8_strict (text : string) : res unit :=
  if has_surrogate text then Raise UnicodeEncodeError else Ok tt.

(** The argument of [sys.exit] at the end of [main]. *)
Definition exit_code (report : ReviewReport) : Z :=
  if Z.ltb 0 (errors report) then 1%Z else 0%Z.

(** The dict that [main] hands to [yaml.dump] for [--output]. *)
Definition issue_document (i : ReviewIssue) : value :=
  VDict [("id", VStr (id i));
         ("severity", VStr (Severity_value (severity i)));
         ("type", VStr (IssueType_value (issue_type i)));
         ("description", description i);
         ("detected_by", detected_by i);
         ("confidence", VStr (confidence i));
         ("suggested_fix", suggested_fix i)].

Definition report_document (report : ReviewReport) : value :=
  VDict [("timestamp", VStr (timestamp report));
         ("spec_dir", VStr (spec_dir report));
         ("total_checks", VInt (total_checks report));
         ("passed", VInt (passed report));
         ("warnings", VInt (warnings report));
         ("errors", VInt (errors report));
         ("issues", VList (issue_document <$> issues report))].

(** [main] to its end: what is printed, the document written when
    [--output] names a file, and the exit code. [dump path doc] is the
    outcome of opening the file at [path] and of [yaml.dump] into it. *)
Definition main_run (config_file : option value) (models_arg : option string)
    (available : string -> bool) (replies : string -> reply)
    (arbiter_reply : res value) (now dir : string) (output : option string)
    (stdout : string -> res unit) (dump : string -> value -> res unit)
  : res (list string * option value * Z) :=
  do report <- main config_file models_arg available replies arbiter_reply now dir;
  do printed <- print_report stdout report;
  match output with
  | Some path =>
      if truthy (VStr path) then
        do _ <- dump path (report_document report);
        let saved := "📄 Report saved to: " +:+ path in
        do _ <- stdout saved;
        Ok (printed ++ [saved], Some (report_document report), exit_code report)
      else Ok (printed, None, exit_code report)
  | None => Ok (printed, None, exit_code report)
  end.

(** An issue that [print_report] can print: [detected_by] can be joined,
    and [suggested_fix] is false in a condition or can be sliced. *)
Definition all_strings (l : list value) : bool :=
  forallb (fun v => match v with VStr _ => true | _ => false end) l.

Definition joinable (v : value) : bool :=
  match v with
  | VList l => all_strings l
  | VStr _ | VDict _ => true
  | _ => false
  end.

Definition sliceable (v : value) : bool :=
  match v with
  | VStr _ | VList _ => true
  | _ => false
  end.

Definition printable_issue (i : ReviewIssue) : bool :=
  joinable (detected_by i)
  && (negb (truthy (suggested_fix i)) || sliceable (suggested_fix i)).

(** The reviewer that [_init_reviewers] builds for backend [n]. *)
Definition built_reviewer (available : string -> bool) (n : string) : ModelReviewer :=
  {| name := n; enabled := available n |}.

(** The [if] of [_init_reviewers] for backend [n] is taken. *)
Definition wanted (models : value) (n : string) : bool :=
  match model_enabled models n with
  | Ok true => true
  | _ => false
  end.

(** A configuration with which [_init_reviewers] can work: a dict whose
    [models], when present, is a dict in which each of the five backends,
    when present, is a dict. *)
Definition configurable (cfg : value) : bool :=
  match py_get cfg "models" (VDict []) with
  | Ok (VDict m) =>
      forallb (fun n => is_dict (default (VDict []) (dict_lookup m n)))
              reviewer_names
  | _ => false
  end.

(** A result whose status line [review] can print: an error, or a response
    that is a dict whose [issues] has a length. *)
Definition countable (f : finding) : bool :=
  match f with
  | with_error _ _ => true
  | with_findings _ v =>
      match py_get v "issues" (VList []) with
      | Ok reported =>
          match py_len reported with
          | Ok _ => true
          | Raise _ => false
          end
      | Raise _ => false
      end
  end.

(** * Properties *)

Example fmt_03d_7 : fmt_03d 7 = "007".
Proof. reflexivity. Qed.

Example fmt_03d_1234 : fmt_03d 1234 = "1234".
Proof. vm_compute. reflexivity. Qed.

Example py_str_nested :
  py_str (VList [VStr "a:b"; VNone; VInt (-3); VDict [("k", VBool true)]])
  = "['a:b', None, -3, {'k': True}]".
Proof. vm_compute. reflexivity. Qed.

(** ** The exception monad and its loops *)

Lemma bind_Ok_inv {A B : Type} (m : res A) (k : A -> res B) (b : B) :
  bind m k = Ok b -> exists a, m = Ok a /\ k a = Ok b.
Proof. destruct m as [a|e]; simpl; [eauto | discriminate]. Qed.

Lemma Ok_inj {A : Type} (a b : A) : Ok a = Ok b -> a = b.
Proof. congruence. Qed.

(** Take a successful chain of binds apart, one step after the other. *)
Ltac unbind H :=
  lazymatch type of H with
  | bind _ _ = Ok _ =>
      let a := fresh "a" in
      let Ha := fresh "Ha" in
      apply bind_Ok_inv in H; destruct H as (a & Ha & H); unbind H
  | Ok _ = Ok _ => apply Ok_inj in H
  | _ => idtac
  end.

Lemma py_get_Ok_inv (x : value) (k : string) (dflt v : value) :
  py_get x k dflt = Ok v ->
  exists d, x = VDict d /\ v = default dflt (dict_lookup d k).
Proof.
  destruct x; simpl; try discriminate.
  intros H; apply Ok_inj in H; subst v.
  eexists; split; [reflexivity|]. by destruct (dict_lookup d k).
Qed.

Lemma py_get_dict (d : list (string * value)) (k : string) (dflt : value) :
  py_get (VDict d) k dflt = Ok (default dflt (dict_lookup d k)).
Proof. simpl. by destruct (dict_lookup d k). Qed.

Lemma for_each_app {S A : Type} (body : S -> A -> res S) (xs ys : list A) (st : S) :
  for_each body (xs ++ ys) st = do st' <- for_each body xs st; for_each body ys st'.
Proof.
  revert st; induction xs as [|x xs IH]; intros st; simpl; [done|].
  destruct (body st x); simpl; auto.
Qed.

(** A loop whose body is "compute something from the item, then update the
    state without failing" is a [map_res] followed by a fold. *)
Lemma for_each_map_res {S A B : Type} (body : S -> A -> res S)
    (f : A -> res B) (g : S -> B -> S) (xs : list A) (st : S) :
  (forall s x, body s x = do y <- f x; Ok (g s y)) ->
  for_each body xs st = do ys <- map_res f xs; Ok (foldl g st ys).
Proof.
  intros Hbody; revert st; induction xs as [|x xs IH]; intros st; simpl; [done|].
  rewrite Hbody. destruct (f x) as [y|e]; simpl; [|done].
  rewrite IH. by destruct (map_res f xs).
Qed.

Lemma map_res_Forall2 {A B : Type} (f : A -> res B) (l : list A) (out : list B) :
  map_res f l = Ok out -> Forall2 (fun x y => f x = Ok y) l out.
Proof.
  revert out; induction l as [|x l IH]; intros out H; simpl in H.
  - apply Ok_inj in H; subst; constructor.
  - unbind H; subst. constructor; auto.
Qed.

Lemma append_issue_loop (mk : nat -> value -> res ReviewIssue)
    (items : list value) (acc : list ReviewIssue) (n : nat) :
  for_each (append_issue mk) items (acc, n)
  = do new <- build_from mk n items; Ok (acc ++ new, n + length items).
Proof.
  revert acc n; induction items as [|item items IH]; intros acc n; simpl.
  - by rewrite app_nil_r, Nat.add_0_r.
  - unfold append_issue at 1; simpl.
    destruct (mk n item) as [i|e]; simpl; [|done].
    rewrite IH. destruct (build_from mk (S n) items) as [more|e]; simpl; [|done].
    by rewrite <- app_assoc, Nat.add_succ_r.
Qed.

Lemma build_from_Forall2 (mk : nat -> value -> res ReviewIssue)
    (items : list value) (n : nat) (out : list ReviewIssue) :
  build_from mk n items = Ok out ->
  Forall2 (fun item i => exists k, mk k item = Ok i) items out.
Proof.
  revert n out; induction items as [|item items IH]; intros n out H; simpl in H.
  - apply Ok_inj in H; subst; constructor.
  - unbind H; subst. constructor; eauto.
Qed.

(** ** The arbiter's verdict *)

(** What a returned issue list of [_parse_arbiter_result] is made of. *)
Lemma parse_arbiter_result_Ok (result : value) (out : list ReviewIssue) :
  _parse_arbiter_result result = Ok out ->
  exists citems witems cs ws,
    verdict_group result "confirmed_issues" = Ok citems /\
    verdict_group result "warnings" = Ok witems /\
    build_from confirmed_issue 1 citems = Ok cs /\
    build_from warning_issue (1 + length citems) witems = Ok ws /\
    out = cs ++ ws.
Proof.
  unfold _parse_arbiter_result, verdict_group. intros H.
  apply bind_Ok_inv in H as (confirmed & Hc & H).
  apply bind_Ok_inv in H as (citems & Hci & H).
  apply bind_Ok_inv in H as (st1 & Hst1 & H).
  apply bind_Ok_inv in H as (warns & Hw & H).
  apply bind_Ok_inv in H as (witems & Hwi & H).
  apply bind_Ok_inv in H as (st2 & Hst2 & H).
  apply Ok_inj in H.
  rewrite append_issue_loop in Hst1.
  apply bind_Ok_inv in Hst1 as (cs & Hcs & Hst1). apply Ok_inj in Hst1. subst st1.
  rewrite append_issue_loop in Hst2.
  apply bind_Ok_inv in Hst2 as (ws & Hws & Hst2). apply Ok_inj in Hst2. subst st2.
  exists citems, witems, cs, ws. rewrite Hc, Hw. simpl in *. by subst.
Qed.

(** C10. In the arbiter-verdict path an issue built from the [warnings]
    group has [suggested_fix], [spec_location] and [program_location] empty
    whatever its entry carries, while an issue built from the
    [confirmed_issues] group holds the three values of its entry. *)
Theorem warnings_group_drops_fix_and_locations
    (result : value) (out : list ReviewIssue) :
  _parse_arbiter_result result = Ok out ->
  exists citems witems cs ws,
    verdict_group result "confirmed_issues" = Ok citems /\
    verdict_group result "warnings" = Ok witems /\
    out = cs ++ ws /\
    Forall2 (fun item i =>
               severity i = ERROR /\
               py_get item "suggested_fix" VNone = Ok (suggested_fix i) /\
               py_get item "spec_location" VNone = Ok (spec_location i) /\
               py_get item "program_location" VNone = Ok (program_location i))
            citems cs /\
    Forall2 (fun (item : value) i =>
               severity i = WARNING /\
               suggested_fix i = VNone /\
               spec_location i = VNone /\
               program_location i = VNone)
            witems ws.
Proof.
  intros H.
  destruct (parse_arbiter_result_Ok _ _ H)
    as (citems & witems & cs & ws & Hc & Hw & Hcs & Hws & ->).
  exists citems, witems, cs, ws. repeat split; try done.
  - eapply Forall2_impl; [exact (build_from_Forall2 _ _ _ _ Hcs)|].
    intros item i [k Hk]. unfold confirmed_issue in Hk.
    apply bind_Ok_inv in Hk as (t & Ht & Hk).
    apply py_get_Ok_inv in Ht as (d & -> & _).
    rewrite !py_get_dict in *. simpl in Hk.
    destruct (IssueType_of t) as [ty|e]; simpl in Hk; [|done].
    apply Ok_inj in Hk. by subst i.
  - eapply Forall2_impl; [exact (build_from_Forall2 _ _ _ _ Hws)|].
    intros item i [k Hk]. unfold warning_issue in Hk.
    unbind Hk. by subst i.
Qed.

Lemma warnings_group_drops_fix_and_locations_witness :
  exists out,
    _parse_arbiter_result sample_verdict = Ok out /\
    exists citems witems cs ws,
      verdict_group sample_verdict "confirmed_issues" = Ok citems /\
      verdict_group sample_verdict "warnings" = Ok witems /\
      out = cs ++ ws /\
      Forall2 (fun item i =>
                 severity i = ERROR /\
                 py_get item "suggested_fix" VNone = Ok (suggested_fix i) /\
                 py_get item "spec_location" VNone = Ok (spec_location i) /\
                 py_get item "program_location" VNone = Ok (program_location i))
              citems cs /\
      Forall2 (fun (item : value) i =>
                 severity i = WARNING /\
                 suggested_fix i = VNone /\
                 spec_location i = VNone /\
                 program_location i = VNone)
              witems ws.
Proof.
  eexists. split.
  - vm_compute. reflexivity.
  - apply warnings_group_drops_fix_and_locations. vm_compute. reflexivity.
Defined.

(** The same verdict, run: the warning's entry carries a fix and two
    locations, its issue has none of them. *)
Example sample_verdict_parsed :
  option_map (map (fun i => (id i, severity i, suggested_fix i, spec_location i)))
    (match _parse_arbiter_result sample_verdict with Ok l => Some l | Raise _ => None end)
  = Some [("ISSUE-001", ERROR, VStr "recompute on change", VStr "order.yaml#total");
          ("ISSUE-002", WARNING, VNone, VNone)].
Proof. vm_compute. reflexivity. Qed.

(** ** The report *)

Lemma count_severity_length (s : Severity) (l : list ReviewIssue) :
  count_severity s l = Z.of_nat (length (filter (fun i => severity i = s) l)).
Proof.
  induction l as [|i l IH]; simpl; [done|].
  rewrite filter_cons. destruct (decide (severity i = s)); simpl length; lia.
Qed.

Lemma review_Ok_inv (self : MultiModelReviewOrchestrator) (replies : string -> reply)
    (arbiter_reply : res value) (now dir : string) (r : ReviewReport) :
  review self replies arbiter_reply now dir = Ok r ->
  exists found, r = build_report now dir (length (reviewers self)) found.
Proof.
  unfold review. intros H.
  apply bind_Ok_inv in H as (u & _ & H).
  apply bind_Ok_inv in H as (found & _ & H).
  apply Ok_inj in H. eauto.
Qed.

(** C2. In the report of every review run that returns,
    [passed + warnings + errors = total_checks], [warnings] is the number of
    issues of severity [warning] and [errors] the number of severity
    [error]. *)
Theorem review_report_counts (self : MultiModelReviewOrchestrator)
    (replies : string -> reply) (arbiter_reply : res value) (now dir : string)
    (r : ReviewReport) :
  review self replies arbiter_reply now dir = Ok r ->
  (passed r + warnings r + errors r = total_checks r)%Z /\
  warnings r = Z.of_nat (length (filter (fun i => severity i = WARNING) (issues r))) /\
  errors r = Z.of_nat (length (filter (fun i => severity i = ERROR) (issues r))).
Proof.
  intros H. apply review_Ok_inv in H as (found & ->).
  unfold build_report; simpl. rewrite <- !count_severity_length.
  repeat split; lia.
Qed.

Lemma review_report_counts_witness :
  exists r,
    review scenario_orchestrator scenario_replies (Raise OSError)
      "2026-01-01T00:00:00" "docs/specs/order" = Ok r /\
    ((passed r + warnings r + errors r = total_checks r)%Z /\
     warnings r
       = Z.of_nat (length (filter (fun i => severity i = WARNING) (issues r))) /\
     errors r
       = Z.of_nat (length (filter (fun i => severity i = ERROR) (issues r)))).
Proof.
  eexists. split.
  - vm_compute. reflexivity.
  - apply (review_report_counts scenario_orchestrator scenario_replies
             (Raise OSError) "2026-01-01T00:00:00" "docs/specs/order").
    vm_compute. reflexivity.
Defined.

(** The set-up of the default configuration on a machine without the claude
    command is the orchestrator of the scenario. *)
Example scenario_orchestrator_init :
  orchestrator_init None no_claude = Ok scenario_orchestrator.
Proof. vm_compute. reflexivity. Qed.

(** The concrete scenario of the specification: one error for Order#total
    found by the three agreeing reviewers, Order#cancel discarded. *)
Example scenario_report :
  review scenario_orchestrator scenario_replies (Raise OSError) "now" "dir"
  = Ok {| timestamp := "now"; spec_dir := "dir";
          total_checks := 50; passed := 49; warnings := 0; errors := 1;
          issues :=
            [ {| id := "ISSUE-001"; severity := ERROR;
                 issue_type := SPEC_PROGRAM_MISMATCH;
                 description := VStr "total is not recomputed";
                 detected_by := VList [VStr "chatgpt"; VStr "gemini"; VStr "codex"];
                 spec_location := VNone; program_location := VNone;
                 test_location := VNone; spec_content := VNone;
                 program_content := VNone; suggested_fix := VNone;
                 confidence := "high" |} ] |}.
Proof. vm_compute. reflexivity. Qed.

(** ** The vote count: first loop *)

Lemma record_vote_add_vote (model : string) (st : tally) (issue : value) :
  record_vote model st issue
  = do r <- report_of model issue; Ok (add_vote st r).
Proof.
  unfold record_vote, report_of.
  destruct (issue_key issue) as [key|e]; reflexivity.
Qed.

Lemma tally_finding_reports (st : tally) (f : finding) :
  tally_finding st f = do rs <- reports_of f; Ok (foldl add_vote st rs).
Proof.
  destruct f as [model reason|model fs]; simpl; [done|].
  destruct (py_get fs "issues" (VList [])) as [reported|e]; simpl; [|done].
  destruct (py_iter reported) as [items|e]; simpl; [|done].
  apply for_each_map_res. intros s x. apply record_vote_add_vote.
Qed.

(** The first loop is a fold of [add_vote] over all the raw findings. *)
Lemma tally_all_reports (all_findings : list finding) (st : tally) :
  for_each tally_finding all_findings st
  = do rs <- all_reports all_findings; Ok (foldl add_vote st rs).
Proof.
  unfold all_reports.
  revert st; induction all_findings as [|f fs IH]; intros st; simpl; [done|].
  rewrite tally_finding_reports.
  destruct (reports_of f) as [rs|e]; simpl; [|done].
  rewrite IH. destruct (map_res reports_of fs) as [rss|e]; simpl; [|done].
  by rewrite foldl_app.
Qed.

Lemma votes_mem_elem_of (key : string) (votes : list (string * list string)) :
  votes_mem key votes = true <-> key ∈ votes.*1.
Proof.
  induction votes as [|[k vs] votes IH]; csimpl.
  - split; [discriminate | by intros ?%elem_of_nil].
  - rewrite orb_true_iff, String.eqb_eq, IH, elem_of_cons.
    split; (intros [Hk|Hk]; [left; congruence | by right]).
Qed.

Lemma votes_append_keys (key model : string) (votes : list (string * list string)) :
  (votes_append key model votes).*1 = votes.*1.
Proof.
  induction votes as [|[k vs] votes IH]; csimpl; [done|].
  destruct (String.eqb k key); csimpl; [done|]. by rewrite IH.
Qed.

(** With distinct keys, appending a vote changes the entry of that key and
    no other. *)
Lemma elem_of_votes_append (key model : string)
    (votes : list (string * list string)) (k : string) (vs : list string) :
  NoDup votes.*1 ->
  (k, vs) ∈ votes_append key model votes ->
  (k ≠ key /\ (k, vs) ∈ votes) \/
  (k = key /\ exists vs0, (key, vs0) ∈ votes /\ vs = vs0 ++ [model]).
Proof.
  induction votes as [|[k0 vs0] votes IH]; csimpl; intros Hnd Hin.
  - by apply elem_of_nil in Hin.
  - apply NoDup_cons in Hnd as [Hk0 Hnd].
    destruct (String.eqb_spec k0 key) as [->|Hne].
    + apply elem_of_cons in Hin as [Heq|Hin].
      * injection Heq as -> ->. right. split; [done|].
        exists vs0. split; [left|done].
      * left. split; [|by right].
        intros ->. apply Hk0. apply list_elem_of_fmap. by exists (key, vs).
    + apply elem_of_cons in Hin as [Heq|Hin].
      * injection Heq as -> ->. left. split; [done|left].
      * destruct (IH Hnd Hin) as [[? ?]|(-> & vs1 & ? & ->)].
        -- left. split; [done|by right].
        -- right. split; [done|]. exists vs1. split; [by right|done].
Qed.

Lemma reports_for_snoc (key : string) (rs : list report) (r : report) :
  reports_for key (rs ++ [r])
  = reports_for key rs ++ (if decide (r_key r = key) then [r] else []).
Proof.
  unfold reports_for. by rewrite filter_app.
Qed.

Lemma voters_of_snoc (key : string) (rs : list report) (r : report) :
  voters_of key (rs ++ [r])
  = voters_of key rs ++ (if decide (r_key r = key) then [r_model r] else []).
Proof.
  unfold voters_of. rewrite reports_for_snoc, fmap_app.
  by destruct (decide (r_key r = key)).
Qed.

Lemma voters_of_nil_iff (key : string) (rs : list report) :
  voters_of key rs = [] <-> reports_for key rs = [].
Proof. unfold voters_of. by destruct (reports_for key rs). Qed.

Lemma first_issue_snoc (key : string) (rs : list report) (r : report) :
  first_issue key (rs ++ [r])
  = match first_issue key rs with
    | Some i => Some i
    | None => if decide (r_key r = key) then Some (r_issue r) else None
    end.
Proof.
  unfold first_issue. rewrite reports_for_snoc, head_app.
  destruct (head (reports_for key rs)); simpl; [done|].
  by destruct (decide (r_key r = key)).
Qed.

Lemma first_issue_None (key : string) (rs : list report) :
  first_issue key rs = None <-> reports_for key rs = [].
Proof. unfold first_issue. by destruct (reports_for key rs). Qed.

Lemma tally_ok_empty : tally_ok empty_tally [].
Proof.
  split; simpl.
  - constructor.
  - by intros k vs ?%elem_of_nil.
  - intros k. split; [by intros ?%elem_of_nil | done].
  - intros k. apply lookup_empty.
Qed.

Lemma votes_append_fresh (key model : string) (vs0 : list string)
    (votes : list (string * list string)) :
  key ∉ votes.*1 ->
  votes_append key model (votes ++ [(key, vs0)]) = votes ++ [(key, vs0 ++ [model])].
Proof.
  induction votes as [|[k vs] votes IH]; csimpl; intros Hk.
  - by rewrite String.eqb_refl.
  - apply not_elem_of_cons in Hk as [Hne Hk].
    destruct (String.eqb_spec k key) as [->|_]; [done|]. by rewrite IH.
Qed.

Lemma tally_ok_add_vote (st : tally) (rs : list report) (r : report) :
  tally_ok st rs -> tally_ok (add_vote st r) (rs ++ [r]).
Proof.
  intros [Hnd Hvs Hks Hdt]. unfold add_vote.
  destruct (votes_mem (r_key r) (issue_votes st)) eqn:Hmem.
  - (* the key has been seen: one more vote *)
    apply votes_mem_elem_of in Hmem. split; simpl.
    + by rewrite votes_append_keys.
    + intros k vs Hin. rewrite voters_of_snoc.
      destruct (elem_of_votes_append _ _ _ _ _ Hnd Hin)
        as [[Hne Hin']|(-> & vs0 & Hin' & ->)].
      * rewrite decide_False by congruence. rewrite app_nil_r. auto.
      * rewrite decide_True by done. f_equal. auto.
    + intros k. rewrite votes_append_keys, reports_for_snoc.
      destruct (decide (r_key r = k)) as [<-|Hne].
      * split; [|done]. intros _ Heq. by apply app_eq_nil in Heq as [_ ?].
      * rewrite app_nil_r. apply Hks.
    + intros k. rewrite first_issue_snoc, Hdt.
      destruct (first_issue k rs) eqn:Hfi; [done|].
      destruct (decide (r_key r = k)) as [<-|Hne]; [|done].
      apply first_issue_None in Hfi. by apply Hks in Hmem.
  - (* a new key: a new entry with this vote, and the details *)
    assert (Hfresh : r_key r ∉ (issue_votes st).*1).
    { intros Hin. apply votes_mem_elem_of in Hin. congruence. }
    assert (Hnone : reports_for (r_key r) rs = []).
    { destruct (reports_for (r_key r) rs) eqn:Heq; [done|].
      destruct Hfresh. apply Hks. by rewrite Heq. }
    simpl. rewrite votes_append_fresh by done. split; simpl.
    + rewrite fmap_app. apply NoDup_app. split; [done|]. split.
      * intros k Hk ->%list_elem_of_singleton. done.
      * apply NoDup_singleton.
    + intros k vs Hin. rewrite voters_of_snoc.
      apply elem_of_app in Hin as [Hin|Hin].
      * rewrite decide_False.
        -- rewrite app_nil_r. auto.
        -- intros <-. apply Hfresh. apply list_elem_of_fmap. by exists (r_key r, vs).
      * apply list_elem_of_singleton in Hin. injection Hin as -> ->.
        rewrite decide_True by done.
        apply voters_of_nil_iff in Hnone. by rewrite Hnone.
    + intros k. rewrite fmap_app, elem_of_app, reports_for_snoc. csimpl.
      rewrite list_elem_of_singleton.
      destruct (decide (r_key r = k)) as [<-|Hne].
      * split; [|by right]. intros _ Heq. by apply app_eq_nil in Heq as [_ ?].
      * rewrite app_nil_r, Hks. split; [|by left].
        intros [?|?]; [done|congruence].
    + intros k. rewrite first_issue_snoc.
      destruct (decide (r_key r = k)) as [<-|Hne].
      * rewrite lookup_insert_eq.
        apply first_issue_None in Hnone. by rewrite Hnone.
      * rewrite lookup_insert_ne by done. rewrite Hdt.
        by destruct (first_issue k rs).
Qed.

Lemma tally_ok_foldl (rs : list report) :
  tally_ok (foldl add_vote empty_tally rs) rs.
Proof.
  induction rs as [|r rs IH] using rev_ind.
  - apply tally_ok_empty.
  - rewrite foldl_snoc. by apply tally_ok_add_vote.
Qed.

(** ** The vote count: second loop *)

Lemma emit_loop (details : gmap string value)
    (votes : list (string * list string)) (acc : list ReviewIssue) (n : nat)
    (st : list ReviewIssue * nat) :
  for_each (emit details) votes (acc, n) = Ok st ->
  exists new,
    st.1 = acc ++ new /\
    Forall2 (issue_of details) (filter (fun kv => 2 <= length kv.2) votes) new.
Proof.
  revert acc n; induction votes as [|kv votes IH]; intros acc n H; simpl in H.
  - apply Ok_inj in H; subst. exists []. by rewrite app_nil_r.
  - apply bind_Ok_inv in H as ([acc1 n1] & Hone & H).
    destruct (IH _ _ H) as (new & -> & Hall). clear IH H.
    unfold emit in Hone. cbn [fst snd] in Hone.
    destruct (details !! kv.1) as [d|] eqn:Hd; [|done].
    rewrite filter_cons.
    destruct (Nat.leb 3 (length kv.2)) eqn:H3.
    { apply Nat.leb_le in H3.
      apply bind_Ok_inv in Hone as (i & Hi & Hone). apply Ok_inj in Hone.
      injection Hone as <- <-.
      rewrite decide_True by lia.
      exists (i :: new). split; [by rewrite <- app_assoc|].
      constructor; [|done]. exists d, ERROR, "high", n.
      unfold rating. by rewrite (proj2 (Nat.leb_le _ _) H3). }
    apply Nat.leb_gt in H3.
    destruct (Nat.eqb (length kv.2) 2) eqn:H2.
    { apply Nat.eqb_eq in H2.
      apply bind_Ok_inv in Hone as (i & Hi & Hone). apply Ok_inj in Hone.
      injection Hone as <- <-.
      rewrite decide_True by lia.
      exists (i :: new). split; [by rewrite <- app_assoc|].
      constructor; [|done]. exists d, WARNING, "medium", n.
      unfold rating. by rewrite H2. }
    apply Nat.eqb_neq in H2. apply Ok_inj in Hone. injection Hone as <- <-.
    rewrite decide_False by lia. by exists new.
Qed.

Lemma Forall2_with_Forall {A B : Type} (Q : A -> Prop) (R : A -> B -> Prop)
    (l : list A) (k : list B) :
  Forall Q l -> Forall2 R l k -> Forall2 (fun x y => Q x /\ R x y) l k.
Proof.
  intros HQ HR; induction HR as [|x y l k Hxy HR IH]; [constructor|].
  apply Forall_cons in HQ as [Hx HQ]. constructor; auto.
Qed.

(** The vote count, when it returns: the kept keys are distinct, they are
    the keys with at least two votes, and each has its one issue, in order. *)
Lemma consensus_filter_Ok (all_findings : list finding) (out : list ReviewIssue) :
  _consensus_filter all_findings = Ok out ->
  exists rs ks,
    all_reports all_findings = Ok rs /\
    NoDup ks /\
    (forall k, k ∈ ks <-> 2 <= length (voters_of k rs)) /\
    Forall2 (kept_issue rs) ks out.
Proof.
  unfold _consensus_filter. intros H.
  apply bind_Ok_inv in H as (t & Ht & H).
  apply bind_Ok_inv in H as (st & Hst & H). apply Ok_inj in H. subst out.
  rewrite tally_all_reports in Ht.
  apply bind_Ok_inv in Ht as (rs & Hrs & Ht). apply Ok_inj in Ht. subst t.
  destruct (tally_ok_foldl rs) as [Hnd Hvs Hks Hdt].
  set (t := foldl add_vote empty_tally rs) in *.
  destruct (emit_loop _ _ _ _ _ Hst) as (new & Hnew & Hall).
  simpl in Hnew. rewrite Hnew. clear Hnew Hst.
  set (kept := filter (fun kv : string * list string => 2 <= length kv.2)
                      (issue_votes t)) in *.
  assert (Hkept : Forall (fun kv => kv.2 = voters_of kv.1 rs) kept).
  { apply Forall_forall. intros [k vs] [_ Hin]%list_elem_of_filter. simpl. auto. }
  exists rs, (kept.*1). split; [done|]. split; [|split].
  - eapply sublist_NoDup; [exact Hnd|].
    apply fmap_sublist. apply sublist_filter.
  - intros k. split.
    + intros ([k' vs] & -> & [Hlen Hin]%list_elem_of_filter)%list_elem_of_fmap.
      simpl in *. by rewrite <- (Hvs _ _ Hin).
    + intros Hlen.
      assert (Hk : k ∈ (issue_votes t).*1).
      { apply Hks. intros Heq. apply voters_of_nil_iff in Heq.
        rewrite Heq in Hlen. simpl in Hlen. lia. }
      apply list_elem_of_fmap in Hk as ([k' vs] & -> & Hin). simpl in *.
      apply list_elem_of_fmap. exists (k', vs). split; [done|].
      apply list_elem_of_filter. split; [|done].
      simpl. by rewrite (Hvs _ _ Hin).
  - apply Forall2_fmap_l.
    eapply Forall2_impl; [exact (Forall2_with_Forall _ _ _ _ Hkept Hall)|].
    intros [k vs] i [Hv (d & sev & conf & n & Hd & Hr & Hi)]. simpl in *. subst vs.
    exists d, sev, conf, n. by rewrite <- Hdt.
Qed.

(** ** Votes are counted per report *)

(** C1. The key [spec_program_mismatch:Order#total] is reported by one
    reviewer only, twice. The vote count has two votes for it and returns a
    warning of confidence medium whose [detected_by] names that reviewer
    twice, where a key backed by a single reviewer should give no issue. *)
Theorem one_agent_twice_is_a_warning :
  exists rs,
    all_reports one_agent_twice = Ok rs /\
    remove_dups (voters_of "spec_program_mismatch:Order#total" rs) = ["chatgpt"] /\
    _consensus_filter one_agent_twice
    = Ok [ {| id := "ISSUE-001"; severity := WARNING;
              issue_type := SPEC_PROGRAM_MISMATCH;
              description := VStr "total is not recomputed";
              detected_by := VList [VStr "chatgpt"; VStr "chatgpt"];
              spec_location := VNone; program_location := VNone;
              test_location := VNone; spec_content := VNone;
              program_content := VNone; suggested_fix := VNone;
              confidence := "medium" |} ].
Proof.
  eexists. split; [vm_compute; reflexivity|].
  split; vm_compute; reflexivity.
Qed.

(** ** Faults that leave the review *)

Lemma filter_false_positives_arbiter_down (e : exn) (all_findings : list finding) :
  filter_false_positives (Raise e) all_findings = _consensus_filter all_findings.
Proof. reflexivity. Qed.

Lemma filter_false_positives_verdict_rejected (result : value) (e : exn)
    (all_findings : list finding) :
  _parse_arbiter_result result = Raise e ->
  filter_false_positives (Ok result) all_findings = _consensus_filter all_findings.
Proof. unfold filter_false_positives; simpl. by intros ->. Qed.

Lemma filter_false_positives_verdict_taken (result : value)
    (out : list ReviewIssue) (all_findings : list finding) :
  _parse_arbiter_result result = Ok out ->
  filter_false_positives (Ok result) all_findings = Ok out.
Proof. unfold filter_false_positives; simpl. by intros ->. Qed.

(** C7. The arbiter's call fails and two reviewers agree on a finding whose
    type is not an [IssueType]: the vote count runs inside the handler of
    the arbiter's failure, its [ValueError] is caught by nothing and leaves
    [review]. A reviewer whose response is a JSON array makes the status
    loop of [review] raise [AttributeError] the same way. *)
Theorem review_lets_faults_escape :
  review scenario_orchestrator smell_replies (Raise OSError)
    "2026-01-01T00:00:00" "docs/specs/order" = Raise ValueError /\
  review scenario_orchestrator array_replies (Raise OSError)
    "2026-01-01T00:00:00" "docs/specs/order" = Raise AttributeError.
Proof. split; vm_compute; reflexivity. Qed.

(** ** Issue types *)

Lemma IssueType_of_value (ty : IssueType) :
  IssueType_of (VStr (IssueType_value ty)) = Ok ty.
Proof. by destruct ty. Qed.

Lemma IssueType_of_Ok (v : value) (ty : IssueType) :
  IssueType_of v = Ok ty -> v = VStr (IssueType_value ty).
Proof.
  destruct v as [| | |s| |]; unfold IssueType_of; try discriminate.
  repeat match goal with
         | |- context [String.eqb s ?x] =>
             destruct (String.eqb_spec s x) as [->|_];
             [intros [= <-]; reflexivity|]
         end.
  discriminate.
Qed.

Lemma IssueType_of_unknown (t : value) :
  (forall ty, t <> VStr (IssueType_value ty)) -> IssueType_of t = Raise ValueError.
Proof.
  intros Hno. destruct (IssueType_of t) as [ty|e] eqn:Ht.
  - apply IssueType_of_Ok in Ht. by destruct (Hno ty).
  - destruct t as [| | |s| |]; unfold IssueType_of in Ht; try congruence.
    repeat match type of Ht with
           | context [String.eqb s ?x] =>
               destruct (String.eqb s x); [discriminate|]
           end.
    congruence.
Qed.

Lemma Forall2_range {A B : Type} (R : A -> B -> Prop) (Q : B -> Prop)
    (l : list A) (k : list B) :
  Forall2 R l k -> (forall x y, R x y -> Q y) -> Forall Q k.
Proof. induction 1; intros HQ; constructor; eauto. Qed.

Lemma Forall2_elem_of_l {A B : Type} (R : A -> B -> Prop)
    (l : list A) (k : list B) (x : A) :
  Forall2 R l k -> x ∈ l -> exists y, y ∈ k /\ R x y.
Proof.
  induction 1 as [|x0 y0 l k Hxy HR IH]; intros Hin.
  - by apply elem_of_nil in Hin.
  - apply elem_of_cons in Hin as [->|Hin].
    + exists y0. split; [left|done].
    + destruct (IH Hin) as (y & Hy & HRy). exists y. split; [by right|done].
Qed.

Lemma confirmed_issue_confidence (n : nat) (item : value) (i : ReviewIssue) :
  confirmed_issue n item = Ok i -> severity i = ERROR /\ confidence i = "high".
Proof. unfold confirmed_issue. intros H. unbind H. by subst i. Qed.

Lemma warning_issue_confidence (n : nat) (item : value) (i : ReviewIssue) :
  warning_issue n item = Ok i -> severity i = WARNING /\ confidence i = "medium".
Proof. unfold warning_issue. intros H. unbind H. by subst i. Qed.

Lemma consensus_issue_fields (n : nat) (sev : Severity) (conf : string)
    (details : value) (voters : list string) (i : ReviewIssue) :
  consensus_issue n sev conf details voters = Ok i ->
  severity i = sev /\ confidence i = conf /\
  detected_by i = VList (VStr <$> voters) /\
  py_get details "description" (VStr EmptyString) = Ok (description i) /\
  suggested_fix i = VNone.
Proof.
  unfold consensus_issue. intros H.
  apply bind_Ok_inv in H as (t & Ht & H).
  apply bind_Ok_inv in H as (ty & Hty & H).
  apply bind_Ok_inv in H as (descr & Hdescr & H).
  apply Ok_inj in H. by subst i.
Qed.

Lemma rating_Some (n : nat) (sev : Severity) (conf : string) :
  rating n = Some (sev, conf) ->
  (3 <= n /\ sev = ERROR /\ conf = "high") \/
  (n = 2 /\ sev = WARNING /\ conf = "medium").
Proof.
  unfold rating. destruct (Nat.leb 3 n) eqn:H3.
  - apply Nat.leb_le in H3. intros [= <- <-]. by left.
  - destruct (Nat.eqb n 2) eqn:H2; [|done].
    apply Nat.eqb_eq in H2. intros [= <- <-]. by right.
Qed.

Lemma filter_false_positives_Ok (arbiter_reply : res value)
    (all_findings : list finding) (out : list ReviewIssue) :
  filter_false_positives arbiter_reply all_findings = Ok out ->
  (exists result, arbiter_reply = Ok result /\ _parse_arbiter_result result = Ok out)
  \/ _consensus_filter all_findings = Ok out.
Proof.
  unfold filter_false_positives. destruct arbiter_reply as [result|e]; simpl.
  - destruct (_parse_arbiter_result result) as [l|e] eqn:Hp; simpl.
    + intros [= ->]. left. eauto.
    + by right.
  - by right.
Qed.

(** No issue of either path has a confidence other than high or medium. *)
Lemma arbitration_confidence (arbiter_reply : res value)
    (all_findings : list finding) (out : list ReviewIssue) :
  filter_false_positives arbiter_reply all_findings = Ok out ->
  Forall (fun i => confidence i = "high" \/ confidence i = "medium") out.
Proof.
  intros [(result & _ & H)|H]%filter_false_positives_Ok.
  - destruct (parse_arbiter_result_Ok _ _ H)
      as (citems & witems & cs & ws & _ & _ & Hcs & Hws & ->).
    apply Forall_app. split.
    + eapply Forall2_range; [exact (build_from_Forall2 _ _ _ _ Hcs)|].
      intros item i [k Hk]. left. by apply confirmed_issue_confidence in Hk as [_ ?].
    + eapply Forall2_range; [exact (build_from_Forall2 _ _ _ _ Hws)|].
      intros item i [k Hk]. right. by apply warning_issue_confidence in Hk as [_ ?].
  - destruct (consensus_filter_Ok _ _ H) as (rs & ks & _ & _ & _ & Hall).
    eapply Forall2_range; [exact Hall|].
    intros k i (first & sev & conf & n & _ & Hr & Hi).
    apply consensus_issue_fields in Hi as (_ & -> & _).
    apply rating_Some in Hr as [(_ & _ & ->)|(_ & _ & ->)]; auto.
Qed.

(** The rule of the vote count, in votes: the kept keys are those with at
    least two votes; three votes or more make an error of confidence high,
    exactly two a warning of confidence medium. *)
Lemma fallback_rates_by_votes (all_findings : list finding)
    (out : list ReviewIssue) :
  _consensus_filter all_findings = Ok out ->
  exists rs ks,
    all_reports all_findings = Ok rs /\
    NoDup ks /\
    (forall k, k ∈ ks <-> 2 <= length (voters_of k rs)) /\
    Forall2
      (fun k i =>
         (3 <= length (voters_of k rs) /\
          severity i = ERROR /\ confidence i = "high") \/
         (length (voters_of k rs) = 2 /\
          severity i = WARNING /\ confidence i = "medium"))
      ks out.
Proof.
  intros H.
  destruct (consensus_filter_Ok _ _ H) as (rs & ks & Hrs & Hnd & Hks & Hall).
  exists rs, ks. repeat split; try done; try apply Hks.
  eapply Forall2_impl; [exact Hall|].
  intros k i (first & sev & conf & n & _ & Hr & Hi).
  apply consensus_issue_fields in Hi as (-> & -> & _).
  apply rating_Some in Hr as [(? & -> & ->)|(? & -> & ->)]; auto.
Qed.

(** A verdict with an entry that neither builder accepts gives no list. *)
Lemma parse_arbiter_result_rejects (result : value) (items : list value)
    (item : value) :
  verdict_items result = Ok items ->
  item ∈ items ->
  (forall k i, confirmed_issue k item <> Ok i) ->
  (forall k i, warning_issue k item <> Ok i) ->
  exists e, _parse_arbiter_result result = Raise e.
Proof.
  intros Hitems Hin Hc Hw.
  destruct (_parse_arbiter_result result) as [out|e] eqn:Hp; [|eauto].
  destruct (parse_arbiter_result_Ok _ _ Hp)
    as (citems & witems & cs & ws & Hci & Hwi & Hcs & Hws & ->).
  unfold verdict_items in Hitems. rewrite Hci, Hwi in Hitems. simpl in Hitems.
  apply Ok_inj in Hitems. subst items.
  apply elem_of_app in Hin as [Hin|Hin].
  - destruct (Forall2_elem_of_l _ _ _ _ (build_from_Forall2 _ _ _ _ Hcs) Hin)
      as (i & _ & k & Hk). by destruct (Hc k i).
  - destruct (Forall2_elem_of_l _ _ _ _ (build_from_Forall2 _ _ _ _ Hws) Hin)
      as (i & _ & k & Hk). by destruct (Hw k i).
Qed.

(** C3, as the code has it. A raw finding with no [type] field becomes an
    issue of type [spec_program_mismatch] in the confirmed group, in the
    warnings group and in the vote count, with the confidence of its group.
    A raw finding whose [type] is present and is not the value of an
    [IssueType] is rejected by both builders of the arbiter-verdict path
    with [ValueError], and a verdict that holds such an entry is given up
    for the vote count. No issue of the arbitration step has a confidence
    other than high or medium. *)
Theorem missing_type_defaults_unknown_type_rejected
    (d : list (string * value)) (n : nat) :
  (dict_lookup d "type" = None ->
     (exists i, confirmed_issue n (VDict d) = Ok i /\
                issue_type i = SPEC_PROGRAM_MISMATCH /\ confidence i = "high") /\
     (exists i, warning_issue n (VDict d) = Ok i /\
                issue_type i = SPEC_PROGRAM_MISMATCH /\ confidence i = "medium") /\
     (forall sev conf voters,
        exists i, consensus_issue n sev conf (VDict d) voters = Ok i /\
                  issue_type i = SPEC_PROGRAM_MISMATCH /\ confidence i = conf)) /\
  (forall t,
     dict_lookup d "type" = Some t ->
     (forall ty, t <> VStr (IssueType_value ty)) ->
     confirmed_issue n (VDict d) = Raise ValueError /\
     warning_issue n (VDict d) = Raise ValueError /\
     (forall result items all_findings,
        verdict_items result = Ok items ->
        VDict d ∈ items ->
        filter_false_positives (Ok result) all_findings
        = _consensus_filter all_findings)) /\
  (forall arbiter_reply all_findings out,
     filter_false_positives arbiter_reply all_findings = Ok out ->
     Forall (fun i => confidence i = "high" \/ confidence i = "medium") out).
Proof.
  split; [|split].
  - intros Hnone. unfold confirmed_issue, warning_issue, consensus_issue.
    rewrite !py_get_dict, Hnone. simpl.
    split; [|split]; [eexists; split; [reflexivity|done]..|].
    intros sev conf voters. eexists; split; [reflexivity|done].
  - intros t Ht Hno.
    assert (Hc : forall k, confirmed_issue k (VDict d) = Raise ValueError).
    { intros k. unfold confirmed_issue. rewrite py_get_dict, Ht. simpl.
      by rewrite (IssueType_of_unknown _ Hno). }
    assert (Hw : forall k, warning_issue k (VDict d) = Raise ValueError).
    { intros k. unfold warning_issue. rewrite py_get_dict, Ht. simpl.
      by rewrite (IssueType_of_unknown _ Hno). }
    split; [apply Hc|]. split; [apply Hw|].
    intros result items all_findings Hitems Hin.
    destruct (parse_arbiter_result_rejects result items (VDict d) Hitems Hin)
      as [e He].
    + intros k i. by rewrite Hc.
    + intros k i. by rewrite Hw.
    + by apply filter_false_positives_verdict_rejected with e.
  - apply arbitration_confidence.
Qed.

Lemma missing_type_defaults_unknown_type_rejected_witness :
  (exists i, confirmed_issue 1 (VDict untyped_fields) = Ok i /\
             issue_type i = SPEC_PROGRAM_MISMATCH /\ confidence i = "high") /\
  (exists i, warning_issue 1 (VDict untyped_fields) = Ok i /\
             issue_type i = SPEC_PROGRAM_MISMATCH /\ confidence i = "medium") /\
  confirmed_issue 1 (VDict smell_fields) = Raise ValueError /\
  filter_false_positives (Ok smell_verdict) scenario = _consensus_filter scenario /\
  (forall out, filter_false_positives (Ok sample_verdict) scenario = Ok out ->
     Forall (fun i => confidence i = "high" \/ confidence i = "medium") out).
Proof.
  destruct (missing_type_defaults_unknown_type_rejected untyped_fields 1)
    as (Hdefault & _ & Hconf).
  destruct (missing_type_defaults_unknown_type_rejected smell_fields 1)
    as (_ & Hreject & _).
  destruct (Hdefault eq_refl) as (Hc & Hw & _).
  destruct (Hreject (VStr "design_smell") eq_refl) as (Hrc & _ & Hfall).
  { intros ty. by destruct ty. }
  split; [exact Hc|]. split; [exact Hw|]. split; [exact Hrc|]. split.
  - apply (Hfall smell_verdict [VDict smell_fields]); [reflexivity|left].
  - intros out. apply Hconf.
Defined.

(** C3, as stated, fails: a confirmed entry of type [design_smell] is not
    turned into an issue of type [spec_program_mismatch] and confidence low;
    [IssueType] rejects it and the verdict yields no issue list. *)
Lemma unknown_type_is_rejected_not_defaulted :
  (forall ty, VStr "design_smell" <> VStr (IssueType_value ty)) /\
  _parse_arbiter_result smell_verdict = Raise ValueError /\
  ~ (exists out,
       _parse_arbiter_result smell_verdict = Ok out /\
       Exists (fun i => issue_type i = SPEC_PROGRAM_MISMATCH /\ confidence i = "low")
              out).
Proof.
  split; [|split].
  - intros ty. by destruct ty.
  - vm_compute. reflexivity.
  - intros (out & Hout & _). vm_compute in Hout. discriminate.
Qed.

(** ** Keys *)

(** C4, as stated, fails: the key of a finding without location ends in
    [None], the text of the absent value, not in [unknown]. *)
Lemma key_without_location_is_not_unknown :
  issue_key (no_location "program_test_gap" "cancel has no test")
    = Ok "program_test_gap:None" /\
  issue_key (no_location "program_test_gap" "cancel has no test")
    <> Ok "program_test_gap:unknown".
Proof. split; [vm_compute; reflexivity | vm_compute; discriminate]. Qed.

Lemma issue_key_dict (d : list (string * value)) :
  issue_key (VDict d)
  = Ok (py_str (default VNone (dict_lookup d "type")) +:+ ":"
        +:+ py_str (default VNone (dict_lookup d "location"))).
Proof. unfold issue_key. by rewrite !py_get_dict. Qed.

(** A raw finding that the first loop reads is one of the reports, under
    its key and the name of its reviewer. *)
Lemma reported_in_all_reports (all_findings : list finding) (rs : list report)
    (f : finding) (model : string) (issue : value) (key : string) :
  all_reports all_findings = Ok rs ->
  f ∈ all_findings ->
  reported_in f model issue ->
  issue_key issue = Ok key ->
  {| r_key := key; r_model := model; r_issue := issue |} ∈ rs.
Proof.
  unfold all_reports.
  intros H Hf (fs & reported & items & -> & Hget & Hiter & Hin) Hkey.
  apply bind_Ok_inv in H as (per & Hper & H). apply Ok_inj in H. subst rs.
  apply map_res_Forall2 in Hper.
  destruct (Forall2_elem_of_l _ _ _ _ Hper Hf) as (out & Hout & Hreports).
  simpl in Hreports. rewrite Hget in Hreports. cbn [bind] in Hreports.
  rewrite Hiter in Hreports. cbn [bind] in Hreports.
  apply map_res_Forall2 in Hreports.
  destruct (Forall2_elem_of_l _ _ _ _ Hreports Hin) as (r & Hr & Hrep).
  unfold report_of in Hrep. rewrite Hkey in Hrep. cbn [bind] in Hrep.
  apply Ok_inj in Hrep. subst r.
  apply list_elem_of_In, in_concat. exists out.
  split; by apply list_elem_of_In.
Qed.

(** After the first loop, a key that was reported has its one entry in
    [issue_votes], and the entry names the reviewer of each of its reports. *)
Lemma reported_key_is_voted (all_findings : list finding) (t : tally)
    (key : string) :
  for_each tally_finding all_findings empty_tally = Ok t ->
  (exists f model issue,
     f ∈ all_findings /\ reported_in f model issue /\ issue_key issue = Ok key) ->
  exists voters,
    (key, voters) ∈ issue_votes t /\
    (forall vs, (key, vs) ∈ issue_votes t -> vs = voters) /\
    forall f model issue,
      f ∈ all_findings -> reported_in f model issue ->
      issue_key issue = Ok key -> model ∈ voters.
Proof.
  intros Ht (f0 & m0 & i0 & Hf0 & Hrep0 & Hkey0).
  rewrite tally_all_reports in Ht.
  apply bind_Ok_inv in Ht as (rs & Hrs & Ht). apply Ok_inj in Ht. subst t.
  destruct (tally_ok_foldl rs) as [Hnd Hvs Hks Hdt].
  pose proof (reported_in_all_reports _ _ _ _ _ _ Hrs Hf0 Hrep0 Hkey0) as Hr0.
  assert (Hk : key ∈ (issue_votes (foldl add_vote empty_tally rs)).*1).
  { apply Hks. intros Hnone.
    assert (Hin : {| r_key := key; r_model := m0; r_issue := i0 |}
                  ∈ reports_for key rs).
    { apply list_elem_of_filter. by split. }
    rewrite Hnone in Hin. by apply elem_of_nil in Hin. }
  apply list_elem_of_fmap in Hk as ([k vs] & Hkeq & Hin).
  simpl in Hkeq. subst k.
  exists vs. split; [done|]. split.
  - intros vs' Hin'. by rewrite (Hvs _ _ Hin), (Hvs _ _ Hin').
  - intros f model issue Hf Hrep Hkey.
    pose proof (reported_in_all_reports _ _ _ _ _ _ Hrs Hf Hrep Hkey) as Hr.
    rewrite (Hvs _ _ Hin). unfold voters_of.
    apply list_elem_of_fmap.
    exists {| r_key := key; r_model := model; r_issue := issue |}.
    split; [done|]. apply list_elem_of_filter. by split.
Qed.

(** C4, as the code has it. The key of a raw finding with no [location]
    field is the text of its type followed by [:None]. Whatever the results
    of the run, two such findings of the same type, read by the first loop
    of the vote count in the responses of reviewers [a] and [b], have that
    one key; when the loop has returned, [issue_votes] has one entry for the
    key, and both reviewers are among its voters. *)
Theorem key_without_location (all_findings : list finding) (t : tally)
    (fa fb : finding) (a b : string) (d1 d2 : list (string * value)) :
  for_each tally_finding all_findings empty_tally = Ok t ->
  fa ∈ all_findings -> reported_in fa a (VDict d1) ->
  fb ∈ all_findings -> reported_in fb b (VDict d2) ->
  dict_lookup d1 "location" = None ->
  dict_lookup d2 "location" = None ->
  dict_lookup d1 "type" = dict_lookup d2 "type" ->
  exists key voters,
    key = py_str (default VNone (dict_lookup d1 "type")) +:+ ":None" /\
    issue_key (VDict d1) = Ok key /\
    issue_key (VDict d2) = Ok key /\
    (key, voters) ∈ issue_votes t /\
    (forall vs, (key, vs) ∈ issue_votes t -> vs = voters) /\
    a ∈ voters /\ b ∈ voters.
Proof.
  intros Ht Hfa Ha Hfb Hb H1 H2 Hty.
  assert (K1 : issue_key (VDict d1)
               = Ok (py_str (default VNone (dict_lookup d1 "type")) +:+ ":None")).
  { by rewrite issue_key_dict, H1. }
  assert (K2 : issue_key (VDict d2)
               = Ok (py_str (default VNone (dict_lookup d1 "type")) +:+ ":None")).
  { by rewrite issue_key_dict, H2, Hty. }
  set (key := py_str (default VNone (dict_lookup d1 "type")) +:+ ":None") in *.
  destruct (reported_key_is_voted all_findings t key Ht)
    as (voters & Hin & Hone & Hvoters).
  { exists fa, a, (VDict d1). by split. }
  exists key, voters. split; [done|]. split; [exact K1|]. split; [exact K2|].
  split; [exact Hin|]. split; [exact Hone|]. split.
  - exact (Hvoters fa a (VDict d1) Hfa Ha K1).
  - exact (Hvoters fb b (VDict d2) Hfb Hb K2).
Qed.

Lemma key_without_location_witness :
  exists (t : tally) (key : string) (voters : list string),
    for_each tally_finding
      [with_findings "chatgpt"
         (response [no_location "program_test_gap" "cancel has no test"]);
       with_error "codex" "CLI not available";
       with_findings "gemini"
         (response [order_total;
                    no_location "program_test_gap" "cancel is never tested"])]
      empty_tally = Ok t /\
    key = "program_test_gap:None" /\
    issue_key (no_location "program_test_gap" "cancel has no test") = Ok key /\
    issue_key (no_location "program_test_gap" "cancel is never tested") = Ok key /\
    (key, voters) ∈ issue_votes t /\
    (forall vs, (key, vs) ∈ issue_votes t -> vs = voters) /\
    "chatgpt" ∈ voters /\ "gemini" ∈ voters.
Proof.
  destruct (for_each tally_finding
      [with_findings "chatgpt"
         (response [no_location "program_test_gap" "cancel has no test"]);
       with_error "codex" "CLI not available";
       with_findings "gemini"
         (response [order_total;
                    no_location "program_test_gap" "cancel is never tested"])]
      empty_tally) as [t|e] eqn:Ht; [|vm_compute in Ht; discriminate].
  destruct (key_without_location _ t
              (with_findings "chatgpt"
                 (response [no_location "program_test_gap" "cancel has no test"]))
              (with_findings "gemini"
                 (response [order_total;
                            no_location "program_test_gap" "cancel is never tested"]))
              "chatgpt" "gemini"
              [("type", VStr "program_test_gap");
               ("description", VStr "cancel has no test")]
              [("type", VStr "program_test_gap");
               ("description", VStr "cancel is never tested")] Ht)
    as (key & voters & H).
  - left.
  - eexists _, _, _. split; [reflexivity|]. split; [reflexivity|].
    split; [reflexivity|]. left.
  - right. right. left.
  - eexists _, _, _. split; [reflexivity|]. split; [reflexivity|].
    split; [reflexivity|]. right. left.
  - reflexivity.
  - reflexivity.
  - reflexivity.
  - exists t, key, voters. split; [reflexivity|exact H].
Defined.

(** The first loop on the two results of the sample above: one entry, with
    the two reviewers in the order of the results. *)
Example location_less_votes :
  issue_votes <$>
    match for_each tally_finding
            [with_findings "chatgpt"
               (response [no_location "program_test_gap" "cancel has no test"]);
             with_findings "gemini"
               (response [no_location "program_test_gap" "cancel is never tested"])]
            empty_tally with
    | Ok t => Some t
    | Raise _ => None
    end
  = Some [("program_test_gap:None", ["chatgpt"; "gemini"])].
Proof. vm_compute. reflexivity. Qed.

(** ** The [passed] count *)

(** C6, as stated, fails: two reviewers agree on twenty-one findings, the
    estimate of the checks is twenty, and [passed] is [-1], not [0]. *)
Lemma passed_is_negative_not_clamped :
  exists r,
    main None (Some "chatgpt,gemini") no_claude shared_replies
      (Raise OSError) "2026-01-01T00:00:00" "docs/specs/order" = Ok r /\
    total_checks r = 20%Z /\ warnings r = 21%Z /\ errors r = 0%Z /\
    passed r = (-1)%Z.
Proof.
  eexists. split; [vm_compute; reflexivity|]. repeat split.
Qed.

(** C6, as the code has it. Once the status loop and the arbitration have
    returned, [review] returns a report; its [passed] is
    [total_checks - errors - warnings] as it comes, negative exactly when
    the errors and warnings outnumber the estimated checks. *)
Theorem passed_is_the_plain_difference (self : MultiModelReviewOrchestrator)
    (replies : string -> reply) (arbiter_reply : res value) (now dir : string)
    (found : list ReviewIssue) :
  for_each model_status (dispatch self replies) tt = Ok tt ->
  filter_false_positives arbiter_reply (dispatch self replies) = Ok found ->
  exists r,
    review self replies arbiter_reply now dir = Ok r /\
    passed r = (total_checks r - errors r - warnings r)%Z /\
    (passed r < 0 <-> total_checks r < errors r + warnings r)%Z.
Proof.
  intros Hstatus Hfound. eexists. split.
  - unfold review. cbv zeta. rewrite Hstatus. simpl. rewrite Hfound. reflexivity.
  - unfold build_report; simpl. split; lia.
Qed.

Lemma passed_is_the_plain_difference_witness :
  exists r,
    review two_reviewers shared_replies (Raise OSError)
      "2026-01-01T00:00:00" "docs/specs/order" = Ok r /\
    passed r = (total_checks r - errors r - warnings r)%Z /\
    (passed r < 0 <-> total_checks r < errors r + warnings r)%Z.
Proof.
  destruct (_consensus_filter (dispatch two_reviewers shared_replies))
    as [found|e] eqn:Hfound; [|vm_compute in Hfound; discriminate].
  apply (passed_is_the_plain_difference two_reviewers shared_replies
           (Raise OSError) "2026-01-01T00:00:00" "docs/specs/order" found).
  - vm_compute. reflexivity.
  - exact Hfound.
Defined.

(** ** The configuration *)

Lemma dict_lookup_set_ne (d : list (string * value)) (k k' : string) (v : value) :
  k <> k' -> dict_lookup (dict_set d k v) k' = dict_lookup d k'.
Proof.
  intros Hne. induction d as [|[k0 v0] d IH]; simpl.
  - by destruct (String.eqb_spec k k').
  - destruct (String.eqb_spec k0 k) as [->|Hk0]; simpl.
    + by destruct (String.eqb_spec k k').
    + by rewrite IH.
Qed.

Lemma review_ignores_config (c1 c2 : value) (rs : list ModelReviewer)
    (replies : string -> reply) (arbiter_reply : res value) (now dir : string) :
  review {| config := c1; reviewers := rs |} replies arbiter_reply now dir
  = review {| config := c2; reviewers := rs |} replies arbiter_reply now dir.
Proof. reflexivity. Qed.

(** C8, as stated, fails: the configuration file has [error_threshold] 1 and
    [warning_threshold] 5; no configuration error is raised, the reviewers
    are dispatched and the report is the one of the default configuration,
    where the finding with three votes is an error. *)
Lemma inverted_thresholds_are_accepted :
  thresholds_valid inverted_config = false /\
  exists r,
    main (Some inverted_config) None no_claude scenario_replies (Raise OSError)
      "2026-01-01T00:00:00" "docs/specs/order" = Ok r /\
    main None None no_claude scenario_replies (Raise OSError)
      "2026-01-01T00:00:00" "docs/specs/order" = Ok r /\
    errors r = 1%Z /\ warnings r = 0%Z.
Proof.
  split; [reflexivity|].
  eexists. split; [vm_compute; reflexivity|].
  split; [vm_compute; reflexivity|]. split; reflexivity.
Qed.

(** C8, as the code has it. The [consensus] section of the configuration is
    neither checked nor read: with any value [v] in its place, the thresholds
    of a valid or of an invalid configuration alike, the set-up, the
    dispatch and the outcome of the run are those of the configuration
    without it. *)
Theorem consensus_section_is_not_read (d : list (string * value)) (v : value)
    (models_arg : option string) (available : string -> bool)
    (replies : string -> reply) (arbiter_reply : res value) (now dir : string) :
  main (Some (VDict (dict_set d "consensus" v))) models_arg available replies
    arbiter_reply now dir
  = main (Some (VDict d)) models_arg available replies arbiter_reply now dir.
Proof.
  unfold main, orchestrator_init, _load_config, _init_reviewers.
  rewrite !py_get_dict, dict_lookup_set_ne by done. cbn [bind].
  match goal with
  | |- context [for_each ?body ?l ?st] => destruct (for_each body l st) as [rs|e]
  end; cbn [bind]; [|done].
  destruct models_arg as [models|]; [destruct (truthy (VStr models))|];
    apply review_ignores_config.
Qed.

(** ** Repeated runs *)

(** C9, as stated, fails: two runs over the same canned replies, five
    seconds apart, give two different reports. *)
Lemma two_runs_differ_in_timestamp :
  exists r1 r2,
    review scenario_orchestrator scenario_replies (Raise OSError)
      "2026-01-01T00:00:00" "docs/specs/order" = Ok r1 /\
    review scenario_orchestrator scenario_replies (Raise OSError)
      "2026-01-01T00:00:05" "docs/specs/order" = Ok r2 /\
    r1 <> r2.
Proof.
  eexists. eexists. split; [vm_compute; reflexivity|].
  split; [vm_compute; reflexivity|]. discriminate.
Qed.

(** C9, as the code has it. Two runs over the same reviewers, the same
    replies and the same arbiter reply give reports that are equal in every
    field but [timestamp], which is the clock reading of each run: same
    counts, same issues with the same identifiers in the same order. *)
Theorem review_repeats_up_to_timestamp (self : MultiModelReviewOrchestrator)
    (replies : string -> reply) (arbiter_reply : res value)
    (now1 now2 dir : string) (r1 : ReviewReport) :
  review self replies arbiter_reply now1 dir = Ok r1 ->
  review self replies arbiter_reply now2 dir = Ok (set_timestamp r1 now2).
Proof.
  unfold review. cbv zeta. intros H.
  destruct (for_each model_status (dispatch self replies) tt) as [u|e];
    simpl in *; [|done].
  destruct (filter_false_positives arbiter_reply (dispatch self replies))
    as [found|e]; simpl in *; [|done].
  apply Ok_inj in H. by subst r1.
Qed.

Lemma review_repeats_up_to_timestamp_witness :
  exists r1,
    review scenario_orchestrator scenario_replies (Raise OSError)
      "2026-01-01T00:00:00" "docs/specs/order" = Ok r1 /\
    review scenario_orchestrator scenario_replies (Raise OSError)
      "2026-01-01T00:00:05" "docs/specs/order"
    = Ok (set_timestamp r1 "2026-01-01T00:00:05").
Proof.
  eexists. split.
  - vm_compute. reflexivity.
  - apply (review_repeats_up_to_timestamp scenario_orchestrator scenario_replies
             (Raise OSError) "2026-01-01T00:00:00").
    vm_compute. reflexivity.
Defined.

(** ** One issue per key *)

Lemma elem_of_voters_of (key m : string) (rs : list report) :
  m ∈ voters_of key rs <-> exists r, r ∈ rs /\ r_key r = key /\ r_model r = m.
Proof.
  unfold voters_of, reports_for. rewrite list_elem_of_fmap. split.
  - intros (r & -> & [Hk Hr]%list_elem_of_filter). eauto.
  - intros (r & Hr & Hk & <-). exists r. split; [done|].
    by apply list_elem_of_filter.
Qed.

Lemma consensus_issue_id (n : nat) (sev : Severity) (conf : string)
    (details : value) (voters : list string) (i : ReviewIssue) :
  consensus_issue n sev conf details voters = Ok i -> id i = issue_label n.
Proof. unfold consensus_issue. intros H. unbind H. by subst i. Qed.

Lemma emit_loop_ids (details : gmap string value)
    (votes : list (string * list string)) (acc : list ReviewIssue) (n : nat)
    (st : list ReviewIssue * nat) :
  for_each (emit details) votes (acc, n) = Ok st ->
  exists new,
    st.1 = acc ++ new /\
    forall j i, new !! j = Some i -> id i = issue_label (n + j).
Proof.
  revert acc n; induction votes as [|kv votes IH]; intros acc n H; simpl in H.
  - apply Ok_inj in H; subst. exists []. split; [by rewrite app_nil_r|].
    intros j i Hj. by destruct j.
  - apply bind_Ok_inv in H as ([acc1 n1] & Hone & H).
    destruct (IH _ _ H) as (new & -> & Hids). clear IH H.
    unfold emit in Hone. cbn [fst snd] in Hone.
    destruct (details !! kv.1) as [d|]; [|done].
    assert (Hkept : forall sev conf,
      (do i <- consensus_issue n sev conf d kv.2; Ok (acc ++ [i], S n))
      = Ok (acc1, n1) ->
      exists new0, acc1 ++ new = acc ++ new0 /\
        forall j i, new0 !! j = Some i -> id i = issue_label (n + j)).
    { intros sev conf Hk. apply bind_Ok_inv in Hk as (i0 & Hi0 & Hk).
      apply Ok_inj in Hk. injection Hk as <- <-.
      exists (i0 :: new). split; [by rewrite <- app_assoc|].
      intros [|j] i Hj; simpl in Hj.
      - injection Hj as <-. rewrite Nat.add_0_r. by apply consensus_issue_id in Hi0.
      - rewrite Nat.add_succ_r. by apply Hids. }
    destruct (Nat.leb 3 (length kv.2)); [by eapply Hkept|].
    destruct (Nat.eqb (length kv.2) 2); [by eapply Hkept|].
    apply Ok_inj in Hone. injection Hone as <- <-. by exists new.
Qed.

Lemma votes_keys_add_vote (st : tally) (r : report) :
  (issue_votes (add_vote st r)).*1
  = if decide (r_key r ∈ (issue_votes st).*1) then (issue_votes st).*1
    else (issue_votes st).*1 ++ [r_key r].
Proof.
  unfold add_vote. destruct (votes_mem (r_key r) (issue_votes st)) eqn:Hmem.
  - apply votes_mem_elem_of in Hmem. rewrite decide_True by done.
    simpl. apply votes_append_keys.
  - rewrite decide_False.
    + simpl. by rewrite votes_append_keys, fmap_app.
    + intros Hin. apply votes_mem_elem_of in Hin. congruence.
Qed.

Lemma votes_keys_foldl (rs : list report) (st : tally) :
  (issue_votes (foldl add_vote st rs)).*1
  = (issue_votes st).*1
    ++ filter (fun k => k ∉ (issue_votes st).*1) (first_seen (r_key <$> rs)).
Proof.
  revert st; induction rs as [|r rs IH]; intros st; csimpl.
  - by rewrite app_nil_r.
  - rewrite IH, votes_keys_add_vote. rewrite filter_cons.
    destruct (decide (r_key r ∈ (issue_votes st).*1)) as [Hin|Hnin].
    + rewrite decide_False by (intros Hn; by apply Hn).
      f_equal. rewrite list_filter_filter. apply list_filter_iff.
      intros k. split; [|by intros [? _]]. intros Hk. split; [done|].
      by intros ->.
    + rewrite decide_True by done. rewrite <- app_assoc. simpl. do 2 f_equal.
      rewrite list_filter_filter. apply list_filter_iff.
      intros k. rewrite elem_of_app, list_elem_of_singleton. tauto.
Qed.

Lemma filter_always {A : Type} (P : A -> Prop) `{forall x, Decision (P x)}
    (l : list A) :
  (forall x, P x) -> filter P l = l.
Proof.
  intros HP. induction l as [|x l IH]; [done|].
  rewrite filter_cons_True by done. by rewrite IH.
Qed.

(** The keys of [issue_votes] stand in the order of their first report. *)
Lemma votes_keys_first_seen (rs : list report) :
  (issue_votes (foldl add_vote empty_tally rs)).*1 = first_seen (r_key <$> rs).
Proof.
  rewrite votes_keys_foldl. simpl. apply filter_always.
  intros k. apply not_elem_of_nil.
Qed.

Lemma kept_keys_filter (rs : list report) (votes : list (string * list string)) :
  Forall (fun kv => kv.2 = voters_of kv.1 rs) votes ->
  (filter (fun kv : string * list string => 2 <= length kv.2) votes).*1
  = filter (fun k => 2 <= length (voters_of k rs)) votes.*1.
Proof.
  induction 1 as [|[k vs] votes Hkv _ IH]; [done|]. simpl in Hkv. subst vs.
  csimpl. rewrite !filter_cons. simpl.
  destruct (decide (2 <= length (voters_of k rs))); csimpl; by rewrite IH.
Qed.

(** The vote count, when it returns, with the order and the numbers. *)
Lemma consensus_filter_shape (all_findings : list finding)
    (out : list ReviewIssue) :
  _consensus_filter all_findings = Ok out ->
  exists rs,
    all_reports all_findings = Ok rs /\
    Forall2 (kept_issue rs)
      (filter (fun k => 2 <= length (voters_of k rs)) (first_seen (r_key <$> rs)))
      out /\
    forall j i, out !! j = Some i -> id i = issue_label (S j).
Proof.
  unfold _consensus_filter. intros H.
  apply bind_Ok_inv in H as (t & Ht & H).
  apply bind_Ok_inv in H as (st & Hst & H). apply Ok_inj in H. subst out.
  rewrite tally_all_reports in Ht.
  apply bind_Ok_inv in Ht as (rs & Hrs & Ht). apply Ok_inj in Ht. subst t.
  destruct (tally_ok_foldl rs) as [Hnd Hvs Hks Hdt].
  destruct (emit_loop _ _ _ _ _ Hst) as (new & Hnew & Hall).
  destruct (emit_loop_ids _ _ _ _ _ Hst) as (new' & Hnew' & Hids).
  simpl in Hnew, Hnew'. rewrite Hnew in *. subst new'. clear Hnew Hst.
  exists rs. split; [done|]. split; [|exact Hids].
  assert (Hvotes : Forall (fun kv => kv.2 = voters_of kv.1 rs)
                     (issue_votes (foldl add_vote empty_tally rs))).
  { apply Forall_forall. intros [k vs] Hin. simpl. auto. }
  rewrite <- votes_keys_first_seen, <- (kept_keys_filter rs _ Hvotes).
  apply Forall2_fmap_l.
  assert (Hkept : Forall (fun kv => kv.2 = voters_of kv.1 rs)
            (filter (fun kv : string * list string => 2 <= length kv.2)
                    (issue_votes (foldl add_vote empty_tally rs)))).
  { apply Forall_forall. intros [k vs] [_ Hin]%list_elem_of_filter. simpl. auto. }
  eapply Forall2_impl; [exact (Forall2_with_Forall _ _ _ _ Hkept Hall)|].
  intros [k vs] i [Hv (d & sev & conf & n & Hd & Hr & Hi)]. simpl in *. subst vs.
  exists d, sev, conf, n. by rewrite <- Hdt.
Qed.






(** * Further properties of the code *)

(** ** Numbering and order of the arbiter's verdict *)

Lemma build_from_lookup (mk : nat -> value -> res ReviewIssue)
    (items : list value) (n : nat) (out : list ReviewIssue) :
  build_from mk n items = Ok out ->
  length out = length items /\
  forall j i, out !! j = Some i ->
    exists item, items !! j = Some item /\ mk (n + j) item = Ok i.
Proof.
  revert n out; induction items as [|item items IH]; intros n out H; simpl in H.
  - apply Ok_inj in H; subst. split; [done|]. intros j i Hj. by destruct j.
  - apply bind_Ok_inv in H as (i0 & Hi0 & H).
    apply bind_Ok_inv in H as (more & Hmore & H). apply Ok_inj in H. subst out.
    destruct (IH _ _ Hmore) as [Hlen Hlook]. split; [simpl; lia|].
    intros [|j] i Hj; simpl in Hj.
    + injection Hj as <-. exists item. by rewrite Nat.add_0_r.
    + destruct (Hlook _ _ Hj) as (item' & Hitem' & Hmk).
      exists item'. split; [done|]. by rewrite Nat.add_succ_r.
Qed.

Lemma confirmed_issue_id (n : nat) (item : value) (i : ReviewIssue) :
  confirmed_issue n item = Ok i -> id i = issue_label n.
Proof. unfold confirmed_issue. intros H. unbind H. by subst i. Qed.

Lemma warning_issue_id (n : nat) (item : value) (i : ReviewIssue) :
  warning_issue n item = Ok i -> id i = issue_label n.
Proof. unfold warning_issue. intros H. unbind H. by subst i. Qed.

Lemma parse_ids (result : value) (out : list ReviewIssue) :
  _parse_arbiter_result result = Ok out ->
  forall j i, out !! j = Some i -> id i = issue_label (S j).
Proof.
  intros H.
  destruct (parse_arbiter_result_Ok _ _ H)
    as (citems & witems & cs & ws & _ & _ & Hcs & Hws & ->).
  destruct (build_from_lookup _ _ _ _ Hcs) as [Hlc Hcl].
  destruct (build_from_lookup _ _ _ _ Hws) as [_ Hwl].
  intros j i Hj. destruct (decide (j < length cs)) as [Hlt|Hge].
  - rewrite lookup_app_l in Hj by done.
    destruct (Hcl _ _ Hj) as (item & _ & Hmk). by apply confirmed_issue_id in Hmk.
  - rewrite lookup_app_r in Hj by lia.
    destruct (Hwl _ _ Hj) as (item & _ & Hmk).
    apply warning_issue_id in Hmk. rewrite Hmk. f_equal. lia.
Qed.

(** X1. A parsed verdict has one issue per confirmed entry followed by one
    per warning entry; the issue at (zero-based) position [j] carries the
    identifier of number [j + 1], the first ones are the errors and the
    others the warnings. *)
Theorem parsed_verdict_is_numbered_in_order (result : value)
    (out : list ReviewIssue) :
  _parse_arbiter_result result = Ok out ->
  exists citems witems,
    verdict_group result "confirmed_issues" = Ok citems /\
    verdict_group result "warnings" = Ok witems /\
    length out = length citems + length witems /\
    forall j i, out !! j = Some i ->
      id i = issue_label (S j) /\
      (j < length citems -> severity i = ERROR) /\
      (length citems <= j -> severity i = WARNING).
Proof.
  intros H.
  destruct (parse_arbiter_result_Ok _ _ H)
    as (citems & witems & cs & ws & Hc & Hw & Hcs & Hws & ->).
  destruct (build_from_lookup _ _ _ _ Hcs) as [Hlc Hcl].
  destruct (build_from_lookup _ _ _ _ Hws) as [Hlw Hwl].
  exists citems, witems. split; [done|]. split; [done|].
  split; [rewrite length_app; lia|].
  intros j i Hj. destruct (decide (j < length cs)) as [Hlt|Hge].
  - rewrite lookup_app_l in Hj by done.
    destruct (Hcl _ _ Hj) as (item & _ & Hmk).
    split; [by apply confirmed_issue_id in Hmk|]. split; [|lia].
    intros _. by apply confirmed_issue_confidence in Hmk as [? _].
  - rewrite lookup_app_r in Hj by lia.
    destruct (Hwl _ _ Hj) as (item & _ & Hmk).
    split.
    + apply warning_issue_id in Hmk. rewrite Hmk. f_equal. lia.
    + split; [lia|]. intros _. by apply warning_issue_confidence in Hmk as [? _].
Qed.

Lemma parsed_verdict_is_numbered_in_order_witness :
  exists out,
    _parse_arbiter_result sample_verdict = Ok out /\
    exists citems witems,
      verdict_group sample_verdict "confirmed_issues" = Ok citems /\
      verdict_group sample_verdict "warnings" = Ok witems /\
      length out = length citems + length witems /\
      forall j i, out !! j = Some i ->
        id i = issue_label (S j) /\
        (j < length citems -> severity i = ERROR) /\
        (length citems <= j -> severity i = WARNING).
Proof.
  eexists. split.
  - vm_compute. reflexivity.
  - apply parsed_verdict_is_numbered_in_order. vm_compute. reflexivity.
Defined.

(** ** When a verdict is parsed *)

Lemma well_formed_entry_spec (item : value) :
  well_formed_entry item = true <->
  exists d, item = VDict d /\
            exists ty, IssueType_of (default (VStr "spec_program_mismatch")
                                       (dict_lookup d "type")) = Ok ty.
Proof.
  split.
  - destruct item as [| | | | |d]; simpl; try discriminate.
    intros H. exists d. split; [done|].
    destruct (dict_lookup d "type") as [t|]; simpl.
    + destruct (IssueType_of t) as [ty|e]; [eauto|discriminate].
    + by exists SPEC_PROGRAM_MISMATCH.
  - intros (d & -> & ty & Hty). simpl.
    destruct (dict_lookup d "type") as [t|]; simpl in *; [|done].
    by rewrite Hty.
Qed.

Lemma confirmed_issue_returns (n : nat) (item : value) :
  (exists i, confirmed_issue n item = Ok i) <-> well_formed_entry item = true.
Proof.
  rewrite well_formed_entry_spec. split.
  - intros [i H]. unfold confirmed_issue in H.
    apply bind_Ok_inv in H as (t & Ht & H).
    apply bind_Ok_inv in H as (ty & Hty & _).
    apply py_get_Ok_inv in Ht as (d & -> & ->). eauto.
  - intros (d & -> & ty & Hty). unfold confirmed_issue.
    rewrite !py_get_dict. cbn [bind]. rewrite Hty. simpl. eauto.
Qed.

Lemma warning_issue_returns (n : nat) (item : value) :
  (exists i, warning_issue n item = Ok i) <-> well_formed_entry item = true.
Proof.
  rewrite well_formed_entry_spec. split.
  - intros [i H]. unfold warning_issue in H.
    apply bind_Ok_inv in H as (t & Ht & H).
    apply bind_Ok_inv in H as (ty & Hty & _).
    apply py_get_Ok_inv in Ht as (d & -> & ->). eauto.
  - intros (d & -> & ty & Hty). unfold warning_issue.
    rewrite !py_get_dict. cbn [bind]. rewrite Hty. simpl. eauto.
Qed.

Lemma build_from_returns (mk : nat -> value -> res ReviewIssue)
    (items : list value) (n : nat) :
  (forall k item, (exists i, mk k item = Ok i) <-> well_formed_entry item = true) ->
  (exists out, build_from mk n items = Ok out)
  <-> forallb well_formed_entry items = true.
Proof.
  intros Hmk. revert n; induction items as [|item items IH]; intros n; simpl.
  - split; eauto.
  - rewrite andb_true_iff, <- (IH (S n)), <- (Hmk n item). split.
    + intros [out H]. apply bind_Ok_inv in H as (i & Hi & H).
      apply bind_Ok_inv in H as (more & Hmore & _). eauto.
    + intros [[i Hi] [more Hmore]]. rewrite Hi, Hmore. simpl. eauto.
Qed.

(** X2. [_parse_arbiter_result] returns a list exactly when the verdict is a
    dict, its two groups can be iterated, and every entry of both is a dict
    whose [type] is absent or the value of an [IssueType]; on every other
    verdict it raises. *)
Theorem verdict_is_parsed_iff_well_formed (result : value) :
  (exists out, _parse_arbiter_result result = Ok out) <->
  (exists items,
     verdict_items result = Ok items /\
     forallb well_formed_entry items = true).
Proof.
  split.
  - intros [out H].
    destruct (parse_arbiter_result_Ok _ _ H)
      as (citems & witems & cs & ws & Hc & Hw & Hcs & Hws & _).
    exists (citems ++ witems). split.
    + unfold verdict_items. by rewrite Hc, Hw.
    + rewrite forallb_app. apply andb_true_iff. split.
      * apply (build_from_returns confirmed_issue citems 1 confirmed_issue_returns).
        eauto.
      * apply (build_from_returns warning_issue witems (1 + length citems)
                 warning_issue_returns). eauto.
  - intros (items & Hitems & Hwf). unfold verdict_items in Hitems.
    apply bind_Ok_inv in Hitems as (citems & Hc & Hitems).
    apply bind_Ok_inv in Hitems as (witems & Hw & Hitems).
    apply Ok_inj in Hitems. subst items.
    rewrite forallb_app in Hwf. apply andb_true_iff in Hwf as [Hwc Hww].
    apply (build_from_returns confirmed_issue citems 1 confirmed_issue_returns)
      in Hwc as [cs Hcs].
    apply (build_from_returns warning_issue witems (1 + length citems)
             warning_issue_returns) in Hww as [ws Hws].
    unfold verdict_group in Hc, Hw.
    apply bind_Ok_inv in Hc as (confirmed & Hcg & Hci).
    apply bind_Ok_inv in Hw as (warns & Hwg & Hwi).
    exists (cs ++ ws). unfold _parse_arbiter_result.
    rewrite Hcg. cbn [bind]. rewrite Hci. cbn [bind].
    rewrite append_issue_loop, Hcs. cbn [bind].
    rewrite Hwg. cbn [bind]. rewrite Hwi. cbn [bind].
    rewrite append_issue_loop, Hws. reflexivity.
Qed.

(** ** Error results in the vote count *)

Lemma tally_skips_errors (all_findings : list finding) (st : tally) :
  for_each tally_finding (filter (fun f => has_findings f = true) all_findings) st
  = for_each tally_finding all_findings st.
Proof.
  revert st; induction all_findings as [|f fs IH]; intros st; [done|].
  destruct f as [model reason|model v].
  - rewrite filter_cons_False by done. apply IH.
  - rewrite filter_cons_True by done. simpl.
    destruct (do reported <- py_get v "issues" (VList []);
              do items <- py_iter reported;
              for_each (record_vote model) items st) as [st'|e]; simpl; [|done].
    apply IH.
Qed.

(** X3. The results of reviewers that failed have no part in the vote
    count: dropping them from the list changes neither the issues nor
    whether the count raises. *)
Theorem error_results_cast_no_vote (all_findings : list finding) :
  _consensus_filter (filter (fun f => has_findings f = true) all_findings)
  = _consensus_filter all_findings.
Proof. unfold _consensus_filter. by rewrite tally_skips_errors. Qed.

(** ** Numbering and order of the vote count *)

(** X4. The issues of the vote count stand in the order in which their keys
    were first reported, keys with fewer than two votes left out, and are
    numbered without gaps: the issue at position [j] has number [j + 1], its
    [detected_by] lists the voters of its key, one name per report, and its
    description is that of the first report of the key. *)
Theorem fallback_issues_follow_first_reports (all_findings : list finding)
    (out : list ReviewIssue) :
  _consensus_filter all_findings = Ok out ->
  exists rs,
    all_reports all_findings = Ok rs /\
    Forall2
      (fun k i =>
         detected_by i = VList (VStr <$> voters_of k rs) /\
         exists first,
           first_issue k rs = Some first /\
           py_get first "description" (VStr EmptyString) = Ok (description i))
      (filter (fun k => 2 <= length (voters_of k rs)) (first_seen (r_key <$> rs)))
      out /\
    forall j i, out !! j = Some i -> id i = issue_label (S j).
Proof.
  intros H. destruct (consensus_filter_shape _ _ H) as (rs & Hrs & Hall & Hids).
  exists rs. split; [done|]. split; [|done].
  eapply Forall2_impl; [exact Hall|].
  intros k i (first & sev & conf & n & Hfirst & _ & Hi).
  apply consensus_issue_fields in Hi as (_ & _ & Hby & Hdescr & _). eauto.
Qed.

Lemma fallback_issues_follow_first_reports_witness :
  exists out,
    _consensus_filter scenario = Ok out /\
    exists rs,
      all_reports scenario = Ok rs /\
      Forall2
        (fun k i =>
           detected_by i = VList (VStr <$> voters_of k rs) /\
           exists first,
             first_issue k rs = Some first /\
             py_get first "description" (VStr EmptyString) = Ok (description i))
        (filter (fun k => 2 <= length (voters_of k rs))
                (first_seen (r_key <$> rs)))
        out /\
      forall j i, out !! j = Some i -> id i = issue_label (S j).
Proof.
  eexists. split.
  - vm_compute. reflexivity.
  - apply fallback_issues_follow_first_reports. vm_compute. reflexivity.
Defined.

(** X5. The vote count returns no issue exactly when no key has two votes;
    in particular the findings of a single responding reviewer that names
    each place once are all dropped. *)
Theorem fallback_is_empty_iff_no_second_vote (all_findings : list finding)
    (out : list ReviewIssue) (rs : list report) :
  _consensus_filter all_findings = Ok out ->
  all_reports all_findings = Ok rs ->
  (out = [] <-> forall k, length (voters_of k rs) <= 1).
Proof.
  intros H Hrs.
  destruct (fallback_rates_by_votes _ _ H) as (rs' & ks & Hrs' & _ & Hks & Hall).
  rewrite Hrs in Hrs'. apply Ok_inj in Hrs'. subst rs'.
  apply Forall2_length in Hall. split.
  - intros -> k. destruct ks; [|done].
    destruct (decide (2 <= length (voters_of k rs))) as [Hk|]; [|lia].
    apply Hks in Hk. by apply elem_of_nil in Hk.
  - intros Hone. destruct ks as [|k ks].
    + by destruct out.
    + assert (Hk : k ∈ k :: ks) by left. apply Hks in Hk.
      specialize (Hone k). lia.
Qed.

Lemma fallback_is_empty_iff_no_second_vote_witness :
  exists out rs,
    _consensus_filter
      [with_findings "chatgpt" (response [order_total; order_cancel]);
       with_error "gemini" "CLI not available"] = Ok out /\
    all_reports
      [with_findings "chatgpt" (response [order_total; order_cancel]);
       with_error "gemini" "CLI not available"] = Ok rs /\
    (out = [] <-> forall k, length (voters_of k rs) <= 1).
Proof.
  eexists. eexists. split; [vm_compute; reflexivity|].
  split; [vm_compute; reflexivity|].
  apply (fallback_is_empty_iff_no_second_vote
           [with_findings "chatgpt" (response [order_total; order_cancel]);
            with_error "gemini" "CLI not available"]);
    vm_compute; reflexivity.
Defined.

(** ** When the vote count returns *)

Lemma map_res_returns {A B : Type} (f : A -> res B) (ok : A -> bool) (l : list A) :
  (forall x, (exists y, f x = Ok y) <-> ok x = true) ->
  (exists ys, map_res f l = Ok ys) <-> forallb ok l = true.
Proof.
  intros Hf. induction l as [|x l IH]; simpl.
  - split; eauto.
  - rewrite andb_true_iff, <- IH, <- Hf. split.
    + intros [ys H]. apply bind_Ok_inv in H as (y & Hy & H).
      apply bind_Ok_inv in H as (ys' & Hys' & _). eauto.
    + intros [[y Hy] [ys Hys]]. rewrite Hy, Hys. simpl. eauto.
Qed.

Lemma report_of_returns (model : string) (issue : value) :
  (exists r, report_of model issue = Ok r) <-> is_dict issue = true.
Proof.
  split.
  - intros [r H]. unfold report_of, issue_key in H.
    apply bind_Ok_inv in H as (key & Hkey & _).
    apply bind_Ok_inv in Hkey as (t & Ht & _).
    by apply py_get_Ok_inv in Ht as (d & -> & _).
  - destruct issue as [| | | | |d]; try discriminate. intros _.
    unfold report_of. rewrite issue_key_dict. simpl. eauto.
Qed.

Lemma reports_of_returns (f : finding) :
  (exists rs, reports_of f = Ok rs) <-> readable f = true.
Proof.
  destruct f as [model reason|model v]; simpl; [split; eauto|].
  destruct (py_get v "issues" (VList [])) as [reported|e]; simpl.
  - destruct (py_iter reported) as [items|e]; simpl.
    + apply map_res_returns. intros x. apply report_of_returns.
    + split; [by intros [? ?] | discriminate].
  - split; [by intros [? ?] | discriminate].
Qed.

Lemma all_reports_returns (all_findings : list finding) :
  (exists rs, all_reports all_findings = Ok rs)
  <-> forallb readable all_findings = true.
Proof.
  rewrite <- (map_res_returns reports_of readable all_findings reports_of_returns).
  unfold all_reports. split.
  - intros [rs H]. apply bind_Ok_inv in H as (rss & Hrss & _). eauto.
  - intros [rss Hrss]. rewrite Hrss. simpl. eauto.
Qed.

Lemma consensus_issue_returns (n : nat) (sev : Severity) (conf : string)
    (details : value) (voters : list string) :
  (exists i, consensus_issue n sev conf details voters = Ok i)
  <-> well_formed_entry details = true.
Proof.
  rewrite well_formed_entry_spec. split.
  - intros [i H]. unfold consensus_issue in H.
    apply bind_Ok_inv in H as (t & Ht & H).
    apply bind_Ok_inv in H as (ty & Hty & _).
    apply py_get_Ok_inv in Ht as (d & -> & ->). eauto.
  - intros (d & -> & ty & Hty). unfold consensus_issue.
    rewrite !py_get_dict. cbn [bind]. rewrite Hty. simpl. eauto.
Qed.

Lemma emit_loop_returns (details : gmap string value)
    (votes : list (string * list string)) (acc : list ReviewIssue) (n : nat) :
  Forall (fun kv => exists d, details !! kv.1 = Some d /\
                      (2 <= length kv.2 -> well_formed_entry d = true)) votes ->
  exists st, for_each (emit details) votes (acc, n) = Ok st.
Proof.
  intros Hall. revert acc n.
  induction Hall as [|kv votes (d & Hd & Hwf) _ IH]; intros acc n; simpl; [eauto|].
  unfold emit at 1. cbn [fst snd]. rewrite Hd.
  destruct (Nat.leb 3 (length kv.2)) eqn:H3.
  { apply Nat.leb_le in H3.
    destruct (proj2 (consensus_issue_returns n ERROR "high" d kv.2)) as [i Hi];
      [apply Hwf; lia|].
    rewrite Hi. cbn [bind]. apply IH. }
  destruct (Nat.eqb (length kv.2) 2) eqn:H2.
  { apply Nat.eqb_eq in H2.
    destruct (proj2 (consensus_issue_returns n WARNING "medium" d kv.2)) as [i Hi];
      [apply Hwf; lia|].
    rewrite Hi. cbn [bind]. apply IH. }
  cbn [bind]. apply IH.
Qed.

(** X6. [_consensus_filter] returns a list exactly when every result that is
    not an error is a dict whose [issues] iterate to dicts, and the first raw
    finding of every key with two votes or more has a [type] that is absent
    or the value of an [IssueType]. A bad [type] on a key with one vote, or
    on a later report of a key, does not make it raise. *)
Theorem fallback_returns_iff (all_findings : list finding) :
  (exists out, _consensus_filter all_findings = Ok out) <->
  (exists rs,
     all_reports all_findings = Ok rs /\
     forallb readable all_findings = true /\
     forall k first,
       2 <= length (voters_of k rs) ->
       first_issue k rs = Some first ->
       well_formed_entry first = true).
Proof.
  split.
  - intros [out H].
    destruct (consensus_filter_Ok _ _ H) as (rs & ks & Hrs & _ & Hks & Hall).
    exists rs. split; [done|]. split; [apply all_reports_returns; eauto|].
    intros k first Hk Hfirst. apply Hks in Hk.
    destruct (Forall2_elem_of_l _ _ _ _ Hall Hk)
      as (i & _ & first' & sev & conf & n & Hfirst' & _ & Hi).
    rewrite Hfirst in Hfirst'. injection Hfirst' as <-.
    apply (consensus_issue_returns n sev conf first (voters_of k rs)). eauto.
  - intros (rs & Hrs & _ & Hwf). unfold _consensus_filter.
    rewrite tally_all_reports, Hrs. cbn [bind].
    destruct (tally_ok_foldl rs) as [Hnd Hvs Hks Hdt].
    destruct (emit_loop_returns (issue_details (foldl add_vote empty_tally rs))
                (issue_votes (foldl add_vote empty_tally rs)) [] 1) as [st Hst].
    + apply Forall_forall. intros [k vs] Hin. simpl.
      assert (Hk : k ∈ (issue_votes (foldl add_vote empty_tally rs)).*1).
      { apply list_elem_of_fmap. by exists (k, vs). }
      apply Hks in Hk. rewrite Hdt.
      destruct (first_issue k rs) as [first|] eqn:Hfirst.
      * exists first. split; [done|]. intros Hlen. apply (Hwf k); [|done].
        by rewrite <- (Hvs _ _ Hin).
      * by apply first_issue_None in Hfirst.
    + rewrite Hst. simpl. eauto.
Qed.

(** A key with one vote and a type that is no [IssueType] is dropped without
    harm; the same finding with a second vote makes the count raise. *)
Example bad_type_with_one_vote :
  _consensus_filter [with_findings "chatgpt" (response [design_smell])] = Ok [] /\
  _consensus_filter [with_findings "chatgpt" (response [design_smell]);
                     with_findings "gemini" (response [design_smell])]
  = Raise ValueError.
Proof. split; vm_compute; reflexivity. Qed.

(** ** Identifiers *)

Lemma pretty_N_go_length_ge (x : N) (s : string) :
  String.length s <= String.length (pretty_N_go x s).
Proof.
  revert s. induction (N.lt_wf_0 x) as [x _ IH]; intros s.
  destruct (decide (x = 0%N)) as [->|Hx]; [by rewrite pretty_N_go_0|].
  rewrite pretty_N_go_step by lia.
  etrans; [|apply IH; apply N.div_lt; lia]. simpl. lia.
Qed.

Lemma pretty_nat_long (n : nat) :
  1000 <= n -> 4 <= String.length (pretty n).
Proof.
  intros Hn. unfold pretty, pretty_nat, pretty, pretty_N.
  set (x := N.of_nat n). assert (Hx : (1000 <= x)%N) by lia.
  rewrite decide_False by lia.
  assert (H10 : (0 < x `div` 10)%N) by (apply N.div_str_pos; lia).
  assert (H100 : (0 < (x `div` 10) `div` 10)%N).
  { apply N.div_str_pos. split; [lia|].
    apply N.div_le_lower_bound; lia. }
  assert (H1000 : (0 < ((x `div` 10) `div` 10) `div` 10)%N).
  { apply N.div_str_pos. split; [lia|].
    apply N.div_le_lower_bound; [lia|].
    apply N.div_le_lower_bound; lia. }
  rewrite pretty_N_go_step by lia.
  rewrite pretty_N_go_step by done.
  rewrite pretty_N_go_step by done.
  rewrite pretty_N_go_step by done.
  etrans; [|apply pretty_N_go_length_ge]. simpl. lia.
Qed.

Lemma fmt_03d_long (n : nat) : 1000 <= n -> fmt_03d n = pretty n.
Proof.
  intros Hn. apply pretty_nat_long in Hn. unfold fmt_03d.
  destruct (String.length (pretty n)) as [|[|[|k]]]; [lia..|done].
Qed.

Lemma fmt_03d_short_NoDup : NoDup (fmt_03d <$> seq 0 1000).
Proof. apply (bool_decide_unpack _). vm_compute. reflexivity. Qed.

Lemma fmt_03d_short_length :
  Forall (fun s => String.length s = 3) (fmt_03d <$> seq 0 1000).
Proof. apply (bool_decide_unpack _). vm_compute. reflexivity. Qed.

Lemma fmt_03d_short_lookup (n : nat) :
  n < 1000 -> (fmt_03d <$> seq 0 1000) !! n = Some (fmt_03d n).
Proof.
  intros Hn. rewrite list_lookup_fmap, lookup_seq_lt by done. done.
Qed.

Lemma fmt_03d_inj (n m : nat) : fmt_03d n = fmt_03d m -> n = m.
Proof.
  intros Heq.
  destruct (decide (n < 1000)) as [Hn|Hn], (decide (m < 1000)) as [Hm|Hm].
  - eapply (NoDup_lookup _ n m); [apply fmt_03d_short_NoDup|..].
    + by apply fmt_03d_short_lookup.
    + rewrite Heq. by apply fmt_03d_short_lookup.
  - exfalso.
    pose proof (Forall_lookup_1 _ _ _ _ fmt_03d_short_length
                  (fmt_03d_short_lookup n Hn)) as Hlen. simpl in Hlen.
    rewrite Heq, fmt_03d_long in Hlen by lia.
    pose proof (pretty_nat_long m). lia.
  - exfalso.
    pose proof (Forall_lookup_1 _ _ _ _ fmt_03d_short_length
                  (fmt_03d_short_lookup m Hm)) as Hlen. simpl in Hlen.
    rewrite <- Heq, fmt_03d_long in Hlen by lia.
    pose proof (pretty_nat_long n). lia.
  - rewrite !fmt_03d_long in Heq by lia. by apply (inj pretty).
Qed.

Lemma issue_label_inj (n m : nat) : issue_label n = issue_label m -> n = m.
Proof.
  unfold issue_label. intros H. apply fmt_03d_inj.
  by apply (inj (String.append "ISSUE-")) in H.
Qed.

Lemma numbered_NoDup (out : list ReviewIssue) :
  (forall j i, out !! j = Some i -> id i = issue_label (S j)) ->
  NoDup (id <$> out).
Proof.
  intros Hids. apply NoDup_alt. intros j1 j2 x H1 H2.
  apply list_lookup_fmap_Some in H1 as (i1 & -> & Hi1).
  apply list_lookup_fmap_Some in H2 as (i2 & Hx & Hi2).
  rewrite (Hids _ _ Hi1), (Hids _ _ Hi2) in Hx.
  apply issue_label_inj in Hx. lia.
Qed.

(** X7. Whatever path produced them, the issues of the arbitration step
    have pairwise distinct identifiers, also beyond [ISSUE-999] where the
    number takes more than three digits. *)
Theorem issue_ids_are_distinct (arbiter_reply : res value)
    (all_findings : list finding) (out : list ReviewIssue) :
  filter_false_positives arbiter_reply all_findings = Ok out ->
  NoDup (id <$> out).
Proof.
  intros [(result & _ & H)|H]%filter_false_positives_Ok; apply numbered_NoDup.
  - by apply (parse_ids result).
  - by destruct (consensus_filter_shape _ _ H) as (rs & _ & _ & Hids).
Qed.

Lemma issue_ids_are_distinct_witness :
  exists out,
    filter_false_positives (Ok sample_verdict) scenario = Ok out /\
    NoDup (id <$> out).
Proof.
  eexists. split.
  - vm_compute. reflexivity.
  - apply (issue_ids_are_distinct (Ok sample_verdict) scenario).
    vm_compute. reflexivity.
Defined.

(** ** More results, more votes *)

Lemma map_res_app {A B : Type} (f : A -> res B) (l k : list A) :
  map_res f (l ++ k)
  = do ys <- map_res f l; do zs <- map_res f k; Ok (ys ++ zs).
Proof.
  induction l as [|x l IH]; simpl.
  - by destruct (map_res f k).
  - destruct (f x) as [y|e]; simpl; [|done]. rewrite IH.
    destruct (map_res f l) as [ys|e]; simpl; [|done].
    by destruct (map_res f k).
Qed.

Lemma all_reports_app (fs1 fs2 : list finding) :
  all_reports (fs1 ++ fs2)
  = do rs1 <- all_reports fs1; do rs2 <- all_reports fs2; Ok (rs1 ++ rs2).
Proof.
  unfold all_reports. rewrite map_res_app.
  destruct (map_res reports_of fs1) as [rss1|e]; simpl; [|done].
  destruct (map_res reports_of fs2) as [rss2|e]; simpl; [|done].
  by rewrite concat_app.
Qed.

Lemma voters_of_app (key : string) (rs1 rs2 : list report) :
  voters_of key (rs1 ++ rs2) = voters_of key rs1 ++ voters_of key rs2.
Proof. unfold voters_of, reports_for. by rewrite filter_app, fmap_app. Qed.

Lemma rated_errors_count (votes : string -> nat) (ks : list string)
    (out : list ReviewIssue) :
  Forall2
    (fun k i =>
       (3 <= votes k /\ severity i = ERROR /\ confidence i = "high") \/
       (votes k = 2 /\ severity i = WARNING /\ confidence i = "medium"))
    ks out ->
  length (filter (fun i => severity i = ERROR) out)
  = length (filter (fun k => 3 <= votes k) ks).
Proof.
  induction 1 as [|k i ks out Hki _ IH]; [done|].
  rewrite !filter_cons.
  destruct Hki as [(Hk & Hi & _)|(Hk & Hi & _)].
  - rewrite !decide_True by done. simpl. by rewrite IH.
  - rewrite !decide_False by (congruence || lia). done.
Qed.

(** X8. Further results, put before or after the ones there are, can only
    add votes: when the vote count returns on both lists, the longer one
    gives at least as many issues and at least as many errors. *)
Theorem more_results_never_fewer_issues (before fs after : list finding)
    (out out' : list ReviewIssue) :
  _consensus_filter fs = Ok out ->
  _consensus_filter (before ++ fs ++ after) = Ok out' ->
  length out <= length out' /\
  length (filter (fun i => severity i = ERROR) out)
  <= length (filter (fun i => severity i = ERROR) out').
Proof.
  intros H H'.
  destruct (fallback_rates_by_votes _ _ H) as (rs & ks & Hrs & Hnd & Hks & Hall).
  destruct (fallback_rates_by_votes _ _ H')
    as (rs' & ks' & Hrs' & Hnd' & Hks' & Hall').
  rewrite !all_reports_app, Hrs in Hrs'.
  apply bind_Ok_inv in Hrs' as (rs0 & _ & Hrs').
  cbn [bind] in Hrs'.
  apply bind_Ok_inv in Hrs' as (rs1 & Hrs1 & Hrs').
  apply bind_Ok_inv in Hrs1 as (rs2 & _ & Hrs1).
  apply Ok_inj in Hrs1. apply Ok_inj in Hrs'. subst rs1 rs'.
  assert (Hmore : forall k, length (voters_of k rs)
                            <= length (voters_of k (rs0 ++ rs ++ rs2))).
  { intros k. rewrite !voters_of_app, !length_app. lia. }
  split.
  - rewrite <- (Forall2_length _ _ _ Hall), <- (Forall2_length _ _ _ Hall').
    apply submseteq_length, NoDup_submseteq; [done|].
    intros k Hk. apply Hks'. apply Hks in Hk. specialize (Hmore k). lia.
  - rewrite (rated_errors_count (fun k => length (voters_of k rs)) _ _ Hall).
    rewrite (rated_errors_count
               (fun k => length (voters_of k (rs0 ++ rs ++ rs2))) _ _ Hall').
    apply submseteq_length, NoDup_submseteq; [by apply NoDup_filter|].
    intros k [Hk Hin]%list_elem_of_filter. apply list_elem_of_filter.
    specialize (Hmore k). split; [lia|]. apply Hks'. lia.
Qed.

Lemma more_results_never_fewer_issues_witness :
  exists out out',
    _consensus_filter [with_findings "A" (response [order_total]);
                       with_findings "B" (response [order_total])] = Ok out /\
    _consensus_filter
      ([with_findings "Z" (response [order_cancel])]
       ++ [with_findings "A" (response [order_total]);
           with_findings "B" (response [order_total])]
       ++ [with_findings "C" (response [order_total; order_cancel])]) = Ok out' /\
    length out <= length out' /\
    length (filter (fun i => severity i = ERROR) out)
    <= length (filter (fun i => severity i = ERROR) out').
Proof.
  eexists. eexists. split; [vm_compute; reflexivity|].
  split; [vm_compute; reflexivity|].
  apply (more_results_never_fewer_issues
           [with_findings "Z" (response [order_cancel])]
           [with_findings "A" (response [order_total]);
            with_findings "B" (response [order_total])]
           [with_findings "C" (response [order_total; order_cancel])]);
    vm_compute; reflexivity.
Defined.

(** ** Who is cited *)

Lemma map_res_report_of_model (model : string) (items : list value)
    (rs : list report) :
  map_res (report_of model) items = Ok rs ->
  Forall (fun r => r_model r = model) rs.
Proof.
  revert rs; induction items as [|item items IH]; intros rs H; simpl in H.
  - apply Ok_inj in H. subst. constructor.
  - apply bind_Ok_inv in H as (r & Hr & H).
    apply bind_Ok_inv in H as (rs' & Hrs' & H). apply Ok_inj in H. subst rs.
    constructor; [|by apply IH].
    unfold report_of in Hr. apply bind_Ok_inv in Hr as (key & _ & Hr).
    apply Ok_inj in Hr. by subst r.
Qed.

Lemma all_reports_cons (f : finding) (fs : list finding) :
  all_reports (f :: fs)
  = do rs1 <- reports_of f; do rs2 <- all_reports fs; Ok (rs1 ++ rs2).
Proof.
  unfold all_reports. simpl.
  destruct (reports_of f) as [rs1|e]; simpl; [|done].
  by destruct (map_res reports_of fs).
Qed.

Lemma all_reports_models (all_findings : list finding) (rs : list report) :
  all_reports all_findings = Ok rs ->
  Forall (fun r => exists v, with_findings (r_model r) v ∈ all_findings) rs.
Proof.
  revert rs; induction all_findings as [|f fs IH]; intros rs H.
  - apply Ok_inj in H. subst. constructor.
  - rewrite all_reports_cons in H.
    apply bind_Ok_inv in H as (rs1 & Hrs1 & H).
    apply bind_Ok_inv in H as (rs2 & Hrs2 & H). apply Ok_inj in H. subst rs.
    apply Forall_app. split.
    + destruct f as [model reason|model v]; simpl in Hrs1.
      * apply Ok_inj in Hrs1. subst. constructor.
      * apply bind_Ok_inv in Hrs1 as (reported & _ & Hrs1).
        apply bind_Ok_inv in Hrs1 as (items & _ & Hrs1).
        eapply Forall_impl; [exact (map_res_report_of_model _ _ _ Hrs1)|].
        intros r ->. exists v. left.
    + eapply Forall_impl; [exact (IH _ Hrs2)|].
      intros r [v Hv]. exists v. by right.
Qed.

Lemma elem_of_dispatch (self : MultiModelReviewOrchestrator)
    (replies : string -> reply) (m : string) (v : value) :
  with_findings m v ∈ dispatch self replies ->
  exists rv, rv ∈ reviewers self /\ enabled rv = true /\ name rv = m /\
             replies m = answered v.
Proof.
  unfold dispatch. intros Hin.
  apply list_elem_of_fmap in Hin as (rv & Heq & Hrv).
  apply list_elem_of_filter in Hrv as [Hen Hrv].
  exists rv. unfold reviewer_review in Heq.
  destruct (replies (name rv)) as [reason|response] eqn:Hrep; [done|].
  injection Heq as -> ->. by rewrite Hrep.
Qed.

Lemma dispatch_votes_cite (self : MultiModelReviewOrchestrator)
    (replies : string -> reply) (found : list ReviewIssue) :
  _consensus_filter (dispatch self replies) = Ok found ->
  Forall
    (fun i =>
       exists voters,
         detected_by i = VList (VStr <$> voters) /\
         2 <= length voters /\
         forall m, m ∈ voters ->
           exists rv v, rv ∈ reviewers self /\ enabled rv = true /\
                        name rv = m /\ replies m = answered v)
    found.
Proof.
  intros Hfound.
  destruct (consensus_filter_Ok _ _ Hfound) as (rs & ks & Hrs & _ & Hks & Hall).
  pose proof (all_reports_models _ _ Hrs) as Hmodels.
  assert (Hkeys : Forall (fun k => k ∈ ks) ks).
  { apply Forall_forall. auto. }
  eapply Forall2_range; [exact (Forall2_with_Forall _ _ _ _ Hkeys Hall)|].
  intros k i [Hk (first & sev & conf & n & _ & _ & Hi)].
  apply consensus_issue_fields in Hi as (_ & _ & Hby & _).
  exists (voters_of k rs). split; [done|]. split; [by apply Hks|].
  intros m (rp & Hrp & _ & <-)%elem_of_voters_of.
  rewrite Forall_forall in Hmodels. destruct (Hmodels _ Hrp) as [v Hv].
  apply elem_of_dispatch in Hv as (rv & ? & ? & ? & ?). eauto 10.
Qed.

(** X9. When the arbiter's call fails, every issue of the report cites at
    least two votes, and every name it cites is the name of an enabled
    reviewer of the orchestrator whose call answered: a disabled or failed
    reviewer is never cited. *)
Theorem fallback_cites_answering_reviewers (self : MultiModelReviewOrchestrator)
    (replies : string -> reply) (e : exn) (now dir : string) (r : ReviewReport) :
  review self replies (Raise e) now dir = Ok r ->
  Forall
    (fun i =>
       exists voters,
         detected_by i = VList (VStr <$> voters) /\
         2 <= length voters /\
         forall m, m ∈ voters ->
           exists rv v, rv ∈ reviewers self /\ enabled rv = true /\
                        name rv = m /\ replies m = answered v)
    (issues r).
Proof.
  unfold review. cbv zeta. intros H.
  apply bind_Ok_inv in H as (u & _ & H).
  apply bind_Ok_inv in H as (found & Hfound & H). apply Ok_inj in H. subst r.
  simpl. rewrite filter_false_positives_arbiter_down in Hfound.
  by apply dispatch_votes_cite.
Qed.

Lemma fallback_cites_answering_reviewers_witness :
  exists r,
    review scenario_orchestrator scenario_replies (Raise OSError)
      "2026-01-01T00:00:00" "docs/specs/order" = Ok r /\
    Forall
      (fun i =>
         exists voters,
           detected_by i = VList (VStr <$> voters) /\
           2 <= length voters /\
           forall m, m ∈ voters ->
             exists rv v, rv ∈ reviewers scenario_orchestrator /\
                          enabled rv = true /\ name rv = m /\
                          scenario_replies m = answered v)
      (issues r).
Proof.
  eexists. split.
  - vm_compute. reflexivity.
  - apply (fallback_cites_answering_reviewers scenario_orchestrator
             scenario_replies OSError "2026-01-01T00:00:00" "docs/specs/order").
    vm_compute. reflexivity.
Defined.

(** ** What a report holds *)

Lemma arbitration_severity (arbiter_reply : res value)
    (all_findings : list finding) (out : list ReviewIssue) :
  filter_false_positives arbiter_reply all_findings = Ok out ->
  Forall (fun i => severity i = ERROR \/ severity i = WARNING) out.
Proof.
  intros [(result & _ & H)|H]%filter_false_positives_Ok.
  - destruct (parse_arbiter_result_Ok _ _ H)
      as (citems & witems & cs & ws & _ & _ & Hcs & Hws & ->).
    apply Forall_app. split.
    + eapply Forall2_range; [exact (build_from_Forall2 _ _ _ _ Hcs)|].
      intros item i [k Hk]. left. by apply confirmed_issue_confidence in Hk as [? _].
    + eapply Forall2_range; [exact (build_from_Forall2 _ _ _ _ Hws)|].
      intros item i [k Hk]. right. by apply warning_issue_confidence in Hk as [? _].
  - destruct (fallback_rates_by_votes _ _ H) as (rs & ks & _ & _ & _ & Hall).
    eapply Forall2_range; [exact Hall|].
    intros k i [(_ & ? & _)|(_ & ? & _)]; auto.
Qed.

Lemma count_severity_split (l : list ReviewIssue) :
  Forall (fun i => severity i = ERROR \/ severity i = WARNING) l ->
  (count_severity ERROR l + count_severity WARNING l = Z.of_nat (length l))%Z.
Proof.
  induction 1 as [|i l Hi _ IH]; simpl; [done|].
  destruct Hi as [Hi|Hi]; rewrite Hi;
    repeat (case_decide; try done); lia.
Qed.

Lemma review_Ok_found (self : MultiModelReviewOrchestrator)
    (replies : string -> reply) (arbiter_reply : res value) (now dir : string)
    (r : ReviewReport) :
  review self replies arbiter_reply now dir = Ok r ->
  exists found,
    filter_false_positives arbiter_reply (dispatch self replies) = Ok found /\
    r = build_report now dir (length (reviewers self)) found.
Proof.
  unfold review. cbv zeta. intros H.
  apply bind_Ok_inv in H as (u & _ & H).
  apply bind_Ok_inv in H as (found & Hfound & H). apply Ok_inj in H. eauto.
Qed.

(** X10. No issue of a report has severity [info]: every one is an error or
    a warning, so [errors + warnings] is the number of issues and [passed]
    is [total_checks] less the number of issues. *)
Theorem report_counts_every_issue (self : MultiModelReviewOrchestrator)
    (replies : string -> reply) (arbiter_reply : res value) (now dir : string)
    (r : ReviewReport) :
  review self replies arbiter_reply now dir = Ok r ->
  Forall (fun i => severity i = ERROR \/ severity i = WARNING) (issues r) /\
  (errors r + warnings r = Z.of_nat (length (issues r)))%Z /\
  (passed r = total_checks r - Z.of_nat (length (issues r)))%Z.
Proof.
  intros (found & Hfound & ->)%review_Ok_found.
  pose proof (arbitration_severity _ _ _ Hfound) as Hsev.
  pose proof (count_severity_split _ Hsev) as Hsum.
  unfold build_report; simpl. repeat split; [done|lia..].
Qed.

Lemma report_counts_every_issue_witness :
  exists r,
    review scenario_orchestrator scenario_replies (Ok sample_verdict)
      "2026-01-01T00:00:00" "docs/specs/order" = Ok r /\
    Forall (fun i => severity i = ERROR \/ severity i = WARNING) (issues r) /\
    (errors r + warnings r = Z.of_nat (length (issues r)))%Z /\
    (passed r = total_checks r - Z.of_nat (length (issues r)))%Z.
Proof.
  eexists. split.
  - vm_compute. reflexivity.
  - apply (report_counts_every_issue scenario_orchestrator scenario_replies
             (Ok sample_verdict) "2026-01-01T00:00:00" "docs/specs/order").
    vm_compute. reflexivity.
Defined.

Lemma dispatch_skips_disabled (c c' : value) (l1 l2 : list ModelReviewer)
    (extra : ModelReviewer) (replies : string -> reply) :
  enabled extra = false ->
  dispatch {| config := c'; reviewers := l1 ++ extra :: l2 |} replies
  = dispatch {| config := c; reviewers := l1 ++ l2 |} replies.
Proof.
  intros Hoff. unfold dispatch. simpl.
  rewrite !filter_app, filter_cons_False; [done|]. by rewrite Hoff.
Qed.

(** X11. A reviewer of the list whose [enabled] flag is false (its command
    or key is missing) is not called, yet counts for ten checks: with it in
    the list, anywhere, the run gives the same issues, errors and warnings,
    and [total_checks] and [passed] are higher by ten. *)
Theorem disabled_reviewer_counts_ten_checks (c : value)
    (l1 l2 : list ModelReviewer) (extra : ModelReviewer)
    (replies : string -> reply) (arbiter_reply : res value) (now dir : string)
    (r : ReviewReport) :
  enabled extra = false ->
  review {| config := c; reviewers := l1 ++ l2 |} replies arbiter_reply now dir
    = Ok r ->
  review {| config := c; reviewers := l1 ++ extra :: l2 |} replies
    arbiter_reply now dir
  = Ok (more_checks r 10).
Proof.
  intros Hoff H. unfold review in *. cbv zeta in *.
  rewrite (dispatch_skips_disabled c c l1 l2 extra replies Hoff).
  destruct (for_each model_status _ tt) as [u|e]; simpl in *; [|done].
  destruct (filter_false_positives arbiter_reply _) as [found|e];
    simpl in *; [|done].
  apply Ok_inj in H. subst r. f_equal.
  unfold build_report, more_checks, set_passed; simpl.
  rewrite !length_app. simpl. f_equal; lia.
Qed.

Lemma disabled_reviewer_counts_ten_checks_witness :
  exists r,
    review two_reviewers scenario_replies (Raise OSError)
      "2026-01-01T00:00:00" "docs/specs/order" = Ok r /\
    review {| config := default_config;
              reviewers := [ {| name := "chatgpt"; enabled := true |};
                             {| name := "gemini"; enabled := true |} ]
                           ++ {| name := "claude"; enabled := false |} :: [] |}
      scenario_replies (Raise OSError) "2026-01-01T00:00:00" "docs/specs/order"
    = Ok (more_checks r 10).
Proof.
  eexists. split.
  - vm_compute. reflexivity.
  - apply (disabled_reviewer_counts_ten_checks default_config
             [ {| name := "chatgpt"; enabled := true |};
               {| name := "gemini"; enabled := true |} ] []
             {| name := "claude"; enabled := false |}).
    + reflexivity.
    + vm_compute. reflexivity.
Defined.

(** ** Setting up the reviewers *)

Lemma add_reviewers_loop (available : string -> bool) (models : value)
    (names : list string) (acc rs : list ModelReviewer) :
  for_each (add_reviewer available models) names acc = Ok rs ->
  rs = acc ++ (built_reviewer available
                 <$> filter (fun n => wanted models n = true) names).
Proof.
  revert acc; induction names as [|n names IH]; intros acc H; simpl in H.
  - apply Ok_inj in H. subst. by rewrite app_nil_r.
  - apply bind_Ok_inv in H as (acc' & Hacc' & H). apply IH in H. subst rs.
    unfold add_reviewer in Hacc'.
    apply bind_Ok_inv in Hacc' as (on & Hon & Hacc'). apply Ok_inj in Hacc'.
    subst acc'.
    assert (Hw : wanted models n = on).
    { unfold wanted. rewrite Hon. by destruct on. }
    destruct on.
    + rewrite filter_cons_True by done. csimpl. by rewrite <- app_assoc.
    + rewrite filter_cons_False; [done|]. by rewrite Hw.
Qed.

Lemma built_reviewer_names (available : string -> bool) (l : list string) :
  name <$> (built_reviewer available <$> l) = l.
Proof. induction l as [|n l IH]; csimpl; [done|]. by rewrite IH. Qed.

Lemma init_reviewers_names (cfg : value) (available : string -> bool)
    (rs : list ModelReviewer) :
  _init_reviewers cfg available = Ok rs ->
  (name <$> rs) `sublist_of` reviewer_names.
Proof.
  unfold _init_reviewers. intros H.
  apply bind_Ok_inv in H as (models & _ & H).
  apply add_reviewers_loop in H. rewrite app_nil_l in H. subst rs.
  rewrite built_reviewer_names. apply sublist_filter.
Qed.

(** X12. [_init_reviewers], when it returns, has built the reviewers in the
    fixed order chatgpt, gemini, codex, qwen, claude, each at most once:
    backend [n] is there exactly when its [enabled] setting is true in a
    condition, a missing setting counting as true, and its [enabled] flag
    is the result of its availability probe, not the setting. *)
Theorem reviewers_follow_the_configuration (cfg : value)
    (available : string -> bool) (rs : list ModelReviewer) :
  _init_reviewers cfg available = Ok rs ->
  exists models,
    py_get cfg "models" (VDict []) = Ok models /\
    (name <$> rs) `sublist_of` reviewer_names /\
    (forall n, n ∈ name <$> rs <->
               n ∈ reviewer_names /\ model_enabled models n = Ok true) /\
    Forall (fun rv => enabled rv = available (name rv)) rs.
Proof.
  unfold _init_reviewers. intros H.
  apply bind_Ok_inv in H as (models & Hmodels & H).
  apply add_reviewers_loop in H. rewrite app_nil_l in H. subst rs.
  exists models. split; [done|]. rewrite built_reviewer_names.
  split; [apply sublist_filter|]. split.
  - intros n. rewrite list_elem_of_filter. unfold wanted. split.
    + intros [Hw Hn]. split; [done|].
      by destruct (model_enabled models n) as [[|]|].
    + intros [Hn Hw]. split; [|done]. by rewrite Hw.
  - apply Forall_fmap, Forall_forall. by intros n _.
Qed.

Lemma reviewers_follow_the_configuration_witness :
  exists rs models,
    _init_reviewers inverted_config no_claude = Ok rs /\
    py_get inverted_config "models" (VDict []) = Ok models /\
    (name <$> rs) `sublist_of` reviewer_names /\
    (forall n, n ∈ name <$> rs <->
               n ∈ reviewer_names /\ model_enabled models n = Ok true) /\
    Forall (fun rv => enabled rv = no_claude (name rv)) rs.
Proof.
  destruct (_init_reviewers inverted_config no_claude) as [rs|e] eqn:Hrs;
    [|vm_compute in Hrs; discriminate].
  destruct (reviewers_follow_the_configuration inverted_config no_claude rs Hrs)
    as (models & H).
  exists rs, models. split; [reflexivity|exact H].
Defined.

Lemma model_enabled_returns (models : value) (n : string) :
  match models with
  | VDict m =>
      if is_dict (default (VDict []) (dict_lookup m n))
      then exists b, model_enabled models n = Ok b
      else model_enabled models n = Raise AttributeError
  | _ => model_enabled models n = Raise AttributeError
  end.
Proof.
  destruct models as [| | | | |m]; try reflexivity.
  unfold model_enabled. rewrite py_get_dict. cbn [bind].
  destruct (default (VDict []) (dict_lookup m n)) as [| | | | |d]; try reflexivity.
  cbn [is_dict]. rewrite py_get_dict. cbn [bind]. eauto.
Qed.

Lemma add_reviewers_returns (available : string -> bool)
    (m : list (string * value)) (names : list string) (acc : list ModelReviewer) :
  if forallb (fun n => is_dict (default (VDict []) (dict_lookup m n))) names
  then exists rs, for_each (add_reviewer available (VDict m)) names acc = Ok rs
  else for_each (add_reviewer available (VDict m)) names acc = Raise AttributeError.
Proof.
  revert acc; induction names as [|n names IH]; intros acc; simpl; [eauto|].
  pose proof (model_enabled_returns (VDict m) n) as Hn. simpl in Hn.
  unfold add_reviewer at 1 3.
  destruct (is_dict (default (VDict []) (dict_lookup m n))); simpl.
  - destruct Hn as [b ->]. cbn [bind]. apply IH.
  - by rewrite Hn.
Qed.

(** X13. [_init_reviewers] returns exactly on the configurations that are a
    dict whose [models], when present, is a dict and in which each of the
    five backends, when present, is a dict; on every other configuration it
    raises [AttributeError]. A backend switched off by a bare
    [chatgpt: false] is such a configuration. *)
Theorem reviewers_set_up_iff_configurable (cfg : value)
    (available : string -> bool) :
  if configurable cfg
  then exists rs, _init_reviewers cfg available = Ok rs
  else _init_reviewers cfg available = Raise AttributeError.
Proof.
  unfold configurable, _init_reviewers.
  destruct cfg as [| | | | |d]; try reflexivity.
  rewrite py_get_dict. cbn [bind].
  destruct (default (VDict []) (dict_lookup d "models")) as [| | | | |m];
    try reflexivity.
  apply add_reviewers_returns.
Qed.

Example bare_false_is_not_configurable :
  _init_reviewers (VDict [("models", VDict [("chatgpt", VBool false)])]) no_claude
  = Raise AttributeError.
Proof. reflexivity. Qed.

(** ** The run from [main] *)

Lemma main_Ok_review (config_file : option value) (models_arg : option string)
    (available : string -> bool) (replies : string -> reply)
    (arbiter_reply : res value) (now dir : string) (r : ReviewReport) :
  main config_file models_arg available replies arbiter_reply now dir = Ok r ->
  exists self,
    review self replies arbiter_reply now dir = Ok r /\
    (name <$> reviewers self) `sublist_of` reviewer_names /\
    (forall models, models_arg = Some models -> models <> EmptyString ->
                    Forall (fun rv => name rv ∈ split_comma models)
                           (reviewers self)).
Proof.
  unfold main, orchestrator_init. intros H.
  apply bind_Ok_inv in H as (o & Ho & H).
  apply bind_Ok_inv in Ho as (rs & Hrs & Ho). apply Ok_inj in Ho. subst o.
  pose proof (init_reviewers_names _ _ _ Hrs) as Hsub.
  destruct models_arg as [models|]; cbn [config reviewers] in H.
  - destruct (truthy (VStr models)) eqn:Hgiven.
    + eexists. split; [exact H|]. cbn [config reviewers]. split.
      * etrans; [|exact Hsub]. apply fmap_sublist, sublist_filter.
      * intros models' [= <-] _. apply Forall_forall.
        by intros rv [? _]%list_elem_of_filter.
    + eexists. split; [exact H|]. cbn [config reviewers]. split; [done|].
      intros models' [= <-] Hne. simpl in Hgiven.
      apply negb_false_iff, String.eqb_eq in Hgiven. done.
  - eexists. split; [exact H|]. simpl. split; [done|]. by intros models' [=].
Qed.

(** X14. In a report out of [main], [total_checks] is ten times the number
    of reviewers left after the configuration and [--models], which are at
    most five: it is one of 0, 10, ..., 50 whatever the size of the
    artifacts under review, and [passed] never exceeds it. *)
Theorem total_checks_is_at_most_fifty (config_file : option value)
    (models_arg : option string) (available : string -> bool)
    (replies : string -> reply) (arbiter_reply : res value) (now dir : string)
    (r : ReviewReport) :
  main config_file models_arg available replies arbiter_reply now dir = Ok r ->
  exists k, k <= 5 /\ total_checks r = (10 * Z.of_nat k)%Z /\
            (passed r <= total_checks r)%Z.
Proof.
  intros (self & Hrev & Hsub & _)%main_Ok_review.
  apply review_Ok_found in Hrev as (found & Hfound & ->).
  pose proof (count_severity_split _ (arbitration_severity _ _ _ Hfound))
    as Hsum.
  exists (length (reviewers self)). split.
  - apply sublist_length in Hsub. rewrite length_fmap in Hsub.
    simpl in Hsub. lia.
  - unfold build_report in *; simpl in *. split; lia.
Qed.

Lemma total_checks_is_at_most_fifty_witness :
  exists r k,
    main None (Some "chatgpt,gemini") no_claude shared_replies
      (Raise OSError) "2026-01-01T00:00:00" "docs/specs/order" = Ok r /\
    k <= 5 /\ total_checks r = (10 * Z.of_nat k)%Z /\
    (passed r <= total_checks r)%Z.
Proof.
  destruct (main None (Some "chatgpt,gemini") no_claude shared_replies
              (Raise OSError) "2026-01-01T00:00:00" "docs/specs/order")
    as [r|e] eqn:Hr; [|vm_compute in Hr; discriminate].
  destruct (total_checks_is_at_most_fifty _ _ _ _ _ _ _ _ Hr) as (k & H).
  exists r, k. split; [reflexivity|exact H].
Defined.

(** ** Status and exit code *)

Lemma count_severity_pos (s : Severity) (l : list ReviewIssue) :
  (0 < count_severity s l)%Z <-> Exists (fun i => severity i = s) l.
Proof.
  induction l as [|i l IH]; simpl.
  - split; [lia|by intros ?%Exists_nil].
  - rewrite Exists_cons, <- IH. pose proof (count_severity_length s l).
    destruct (decide (severity i = s)); split; try lia; auto.
    intros [?|?]; [done|lia].
Qed.

Lemma count_severity_zero (s : Severity) (l : list ReviewIssue) :
  count_severity s l = 0%Z <-> Forall (fun i => severity i <> s) l.
Proof.
  induction l as [|i l IH]; simpl.
  - split; [constructor|done].
  - rewrite Forall_cons, <- IH. pose proof (count_severity_length s l).
    destruct (decide (severity i = s)) as [Heq|Hne].
    + split; [lia|by intros [? _]].
    + split; [intros H0; split; [done|lia] | intros [_ ?]; lia].
Qed.

(** X15. When [main] runs to its end, the exit code is 1 and the printed
    status is FAILED exactly when the report has an issue of severity error;
    otherwise the exit code is 0, every issue is a warning, and the status is
    PASS for no issue at all and CONDITIONAL PASS for warnings only. *)
Theorem exit_code_follows_errors (config_file : option value)
    (models_arg : option string) (available : string -> bool)
    (replies : string -> reply) (arbiter_reply : res value) (now dir : string)
    (output : option string) (stdout : string -> res unit)
    (dump : string -> value -> res unit) (printed : list string)
    (doc : option value) (code : Z) :
  main_run config_file models_arg available replies arbiter_reply now dir output
    stdout dump
    = Ok (printed, doc, code) ->
  exists r,
    main config_file models_arg available replies arbiter_reply now dir = Ok r /\
    ((code = 1%Z /\ report_status r = "❌ FAILED" /\
      Exists (fun i => severity i = ERROR) (issues r)) \/
     (code = 0%Z /\ Forall (fun i => severity i = WARNING) (issues r) /\
      report_status r
      = match issues r with [] => "✅ PASS" | _ => "⚠️ CONDITIONAL PASS" end)).
Proof.
  unfold main_run. intros H.
  apply bind_Ok_inv in H as (r & Hr & H).
  apply bind_Ok_inv in H as (lines & _ & H).
  assert (Hcode : code = exit_code r).
  { destruct output as [path|]; [destruct (truthy (VStr path))|].
    - apply bind_Ok_inv in H as (? & _ & H).
      apply bind_Ok_inv in H as (? & _ & H).
      apply Ok_inj in H. by injection H as _ _ <-.
    - apply Ok_inj in H. by injection H as _ _ <-.
    - apply Ok_inj in H. by injection H as _ _ <-. }
  clear H. exists r. split; [done|].
  apply main_Ok_review in Hr as (self & Hrev & _).
  apply review_Ok_found in Hrev as (found & Hfound & ->).
  pose proof (arbitration_severity _ _ _ Hfound) as Hsev.
  unfold exit_code, report_status, build_report in *; simpl in *.
  destruct (Z.ltb_spec 0 (count_severity ERROR found)) as [Hpos|Hzero].
  - left. split; [done|]. split; [|by apply count_severity_pos].
    by destruct (Z.eqb_spec (count_severity ERROR found) 0); [lia|].
  - right. split; [done|].
    pose proof (count_severity_length ERROR found) as Hlen.
    assert (Hnone : count_severity ERROR found = 0%Z) by lia.
    assert (Hwarn : Forall (fun i => severity i = WARNING) found).
    { apply count_severity_zero in Hnone.
      rewrite Forall_forall in *. intros i Hi.
      destruct (Hsev i Hi) as [?|?]; [by destruct (Hnone i Hi)|done]. }
    split; [done|]. rewrite Hnone. simpl.
    destruct found as [|i found]; [done|].
    apply Forall_cons in Hwarn as [Hi _]. simpl. rewrite Hi.
    rewrite decide_True by done.
    pose proof (count_severity_length WARNING found).
    by destruct (Z.eqb_spec (1 + count_severity WARNING found) 0); [lia|].
Qed.

Lemma exit_code_follows_errors_witness :
  exists printed doc code r,
    main_run None None no_claude scenario_replies (Raise OSError)
      "2026-01-01T00:00:00" "docs/specs/order" (Some "report.yaml")
      utf8_strict (fun _ _ => Ok tt)
    = Ok (printed, doc, code) /\
    main None None no_claude scenario_replies (Raise OSError)
      "2026-01-01T00:00:00" "docs/specs/order" = Ok r /\
    ((code = 1%Z /\ report_status r = "❌ FAILED" /\
      Exists (fun i => severity i = ERROR) (issues r)) \/
     (code = 0%Z /\ Forall (fun i => severity i = WARNING) (issues r) /\
      report_status r
      = match issues r with [] => "✅ PASS" | _ => "⚠️ CONDITIONAL PASS" end)).
Proof.
  destruct (main_run None None no_claude scenario_replies (Raise OSError)
              "2026-01-01T00:00:00" "docs/specs/order" (Some "report.yaml")
              utf8_strict (fun _ _ => Ok tt))
    as [[[printed doc] code]|e] eqn:Hrun; [|vm_compute in Hrun; discriminate].
  destruct (exit_code_follows_errors _ _ _ _ _ _ _ _ _ _ _ _ _ Hrun) as (r & H).
  exists printed, doc, code, r. split; [reflexivity|exact H].
Defined.

(** ** Printing the report *)

Lemma strings_of_returns (l : list value) :
  (exists texts, strings_of l = Ok texts) <-> all_strings l = true.
Proof.
  induction l as [|v l IH]; simpl.
  - split; eauto.
  - destruct v as [| | |s| |]; simpl;
      try (split; [by intros [? ?] | discriminate]).
    rewrite <- IH. split.
    + intros [texts H]. apply bind_Ok_inv in H as (more & Hmore & _). eauto.
    + intros [more Hmore]. rewrite Hmore. simpl. eauto.
Qed.

Lemma py_join_returns (sep : string) (v : value) :
  (exists text, py_join sep v = Ok text) <-> joinable v = true.
Proof.
  destruct v as [| | |s|l|d]; simpl;
    try (split; [by intros [? ?] | discriminate]); try (split; eauto).
  - intros [text H]. apply bind_Ok_inv in H as (texts & Htexts & _).
    apply strings_of_returns. eauto.
  - intros [texts Htexts]%strings_of_returns. rewrite Htexts. simpl. eauto.
Qed.

Lemma py_slice_100_returns (v : value) :
  (exists cut, py_slice_100 v = Ok cut) <-> sliceable v = true.
Proof.
  destruct v; simpl; split; eauto; try discriminate; by intros [? ?].
Qed.

(** On a stream that takes every text, only the join and the slice are left
    of [print_issue]. *)
Lemma print_issue_takes_all (i : ReviewIssue) :
  print_issue takes_all i
  = do names <- py_join ", " (detected_by i);
    do fix_line <-
      (if truthy (suggested_fix i) then
         do cut <- py_slice_100 (suggested_fix i);
         Ok ["      Fix: " +:+ py_str cut +:+ "..."]
       else Ok []);
    Ok (["  " +:+ (if decide (severity i = ERROR) then "❌" else "⚠️")
              +:+ " [" +:+ id i +:+ "] " +:+ py_str (description i);
         "      Type: " +:+ IssueType_value (issue_type i);
         "      Detected by: " +:+ names;
         "      Confidence: " +:+ confidence i]
        ++ fix_line ++ [EmptyString]).
Proof.
  unfold print_issue, takes_all. cbv zeta. cbn [bind].
  destruct (py_join ", " (detected_by i)) as [names|e]; cbn [bind]; [|done].
  destruct (truthy (suggested_fix i)); [|done].
  by destruct (py_slice_100 (suggested_fix i)).
Qed.

Lemma print_issue_returns (i : ReviewIssue) :
  (exists lines, print_issue takes_all i = Ok lines) <-> printable_issue i = true.
Proof.
  rewrite print_issue_takes_all. unfold printable_issue.
  rewrite andb_true_iff, orb_true_iff, negb_true_iff.
  rewrite <- (py_join_returns ", "), <- py_slice_100_returns. split.
  - intros [lines H]. apply bind_Ok_inv in H as (names & Hnames & H).
    split; [eauto|].
    apply bind_Ok_inv in H as (fix_line & Hfix & _).
    destruct (truthy (suggested_fix i)); [right|by left].
    apply bind_Ok_inv in Hfix as (cut & Hcut & _). eauto.
  - intros [[names Hnames] Hfix]. rewrite Hnames. cbn [bind].
    destruct (truthy (suggested_fix i)).
    + destruct Hfix as [|[cut Hcut]]; [done|]. rewrite Hcut. simpl. eauto.
    + simpl. eauto.
Qed.

Lemma written (m : res unit) (u : unit) : m = Ok u -> m = Ok tt.
Proof. by destruct u. Qed.

(** A stream prints an issue exactly when a stream that takes every text
    prints it and the stream takes each of its texts. *)
Lemma print_issue_stream (stdout : string -> res unit) (i : ReviewIssue)
    (lines : list string) :
  print_issue stdout i = Ok lines
  <-> print_issue takes_all i = Ok lines /\
      Forall (fun text => stdout text = Ok tt) lines.
Proof.
  rewrite print_issue_takes_all. unfold print_issue. cbv zeta. split.
  - intros H.
    apply bind_Ok_inv in H as (u1 & H1%written & H).
    apply bind_Ok_inv in H as (u2 & H2%written & H).
    apply bind_Ok_inv in H as (names & Hnames & H).
    apply bind_Ok_inv in H as (u3 & H3%written & H).
    apply bind_Ok_inv in H as (u4 & H4%written & H).
    apply bind_Ok_inv in H as (fix_line & Hfix & H).
    apply bind_Ok_inv in H as (u5 & H5%written & H).
    apply Ok_inj in H. subst lines. rewrite Hnames. cbn [bind].
    destruct (truthy (suggested_fix i)).
    + apply bind_Ok_inv in Hfix as (cut & Hcut & Hfix).
      apply bind_Ok_inv in Hfix as (u6 & H6%written & Hfix).
      apply Ok_inj in Hfix. subst fix_line. rewrite Hcut. cbn [bind].
      split; [done|]. by repeat constructor.
    + apply Ok_inj in Hfix. subst fix_line. cbn [bind].
      split; [done|]. by repeat constructor.
  - intros [H Hall].
    apply bind_Ok_inv in H as (names & Hnames & H).
    apply bind_Ok_inv in H as (fix_line & Hfix & H).
    apply Ok_inj in H. subst lines.
    apply Forall_cons in Hall as [H1 Hall]. apply Forall_cons in Hall as [H2 Hall].
    apply Forall_cons in Hall as [H3 Hall]. apply Forall_cons in Hall as [H4 Hall].
    apply Forall_app in Hall as [Hfixes H5]. apply Forall_cons in H5 as [H5 _].
    rewrite H1. cbn [bind]. rewrite H2. cbn [bind]. rewrite Hnames. cbn [bind].
    rewrite H3. cbn [bind]. rewrite H4. cbn [bind].
    destruct (truthy (suggested_fix i)).
    + apply bind_Ok_inv in Hfix as (cut & Hcut & Hfix).
      apply Ok_inj in Hfix. subst fix_line.
      apply Forall_cons in Hfixes as [H6 _].
      rewrite Hcut. cbn [bind]. rewrite H6. cbn [bind]. rewrite H5. done.
    + apply Ok_inj in Hfix. subst fix_line. cbn [bind]. rewrite H5. done.
Qed.

Lemma print_issues_stream (stdout : string -> res unit) (l : list ReviewIssue)
    (blocks : list (list string)) :
  map_res (print_issue stdout) l = Ok blocks
  <-> map_res (print_issue takes_all) l = Ok blocks /\
      Forall (fun text => stdout text = Ok tt) (concat blocks).
Proof.
  revert blocks; induction l as [|i l IH]; intros blocks; simpl.
  - split.
    + intros H. apply Ok_inj in H. subst blocks. split; [done|constructor].
    + by intros [H _].
  - split.
    + intros H. apply bind_Ok_inv in H as (lines & Hlines & H).
      apply bind_Ok_inv in H as (more & Hmore & H). apply Ok_inj in H.
      subst blocks.
      apply print_issue_stream in Hlines as [-> Hall].
      apply IH in Hmore as [-> Hmore]. split; [done|].
      simpl. by apply Forall_app.
    + intros [H Hall]. apply bind_Ok_inv in H as (lines & Hlines & H).
      apply bind_Ok_inv in H as (more & Hmore & H). apply Ok_inj in H.
      subst blocks. simpl in Hall. apply Forall_app in Hall as [Hall Hrest].
      rewrite (proj2 (print_issue_stream stdout i lines) (conj Hlines Hall)).
      cbn [bind]. rewrite (proj2 (IH more) (conj Hmore Hrest)). done.
Qed.

Lemma print_report_stream (stdout : string -> res unit) (report : ReviewReport)
    (printed : list string) :
  print_report stdout report = Ok printed
  <-> print_report takes_all report = Ok printed /\
      Forall (fun text => stdout text = Ok tt) printed.
Proof.
  unfold print_report, takes_all at 1 2. cbv zeta. cbn [bind].
  destruct (issues report) as [|i l]; split.
  - intros H. apply bind_Ok_inv in H as (u & Hbox%written & H).
    apply Ok_inj in H. subst printed. split; [done|]. by repeat constructor.
  - intros [H Hall]. apply Ok_inj in H. subst printed.
    apply Forall_cons in Hall as [-> _]. done.
  - intros H. apply bind_Ok_inv in H as (u1 & Hbox%written & H).
    apply bind_Ok_inv in H as (u2 & Hhead%written & H).
    apply bind_Ok_inv in H as (blocks & Hblocks & H).
    apply Ok_inj in H. subst printed.
    apply print_issues_stream in Hblocks as [-> Hall]. cbn [bind].
    split; [done|]. by repeat constructor.
  - intros [H Hall]. apply bind_Ok_inv in H as (blocks & Hblocks & H).
    apply Ok_inj in H. subst printed.
    apply Forall_cons in Hall as [-> Hall]. apply Forall_cons in Hall as [-> Hall].
    cbn [bind].
    rewrite (proj2 (print_issues_stream stdout (i :: l) blocks)
               (conj Hblocks Hall)). done.
Qed.

Lemma print_report_returns (report : ReviewReport) :
  (exists texts, print_report takes_all report = Ok texts)
  <-> forallb printable_issue (issues report) = true.
Proof.
  unfold print_report, takes_all at 1 2. cbv zeta. cbn [bind].
  destruct (issues report) as [|i l] eqn:Hissues; [split; eauto|].
  rewrite <- (map_res_returns (print_issue takes_all) printable_issue (i :: l)
                print_issue_returns).
  split.
  - intros [printed H]. apply bind_Ok_inv in H as (blocks & Hblocks & _). eauto.
  - intros [blocks Hblocks]. rewrite Hblocks. simpl. eauto.
Qed.

(** X16. [print_report] prints a report, rather than raising, exactly when
    for every issue [detected_by] is a list of strings (or a string or a
    dict) and [suggested_fix] is empty or a string or a list, and the
    output stream takes each text of the report, the texts being those that
    a stream which refuses nothing receives. A verdict of the arbiter whose
    entry has a number as [detected_by], or a number or a non-empty dict as
    [suggested_fix], gives a report that no stream prints; a description
    with a lone surrogate gives one that a strict UTF-8 stream refuses. *)
Theorem report_is_printed_iff_printable (stdout : string -> res unit)
    (report : ReviewReport) :
  (exists printed, print_report stdout report = Ok printed)
  <-> forallb printable_issue (issues report) = true /\
      forall texts, print_report takes_all report = Ok texts ->
                    Forall (fun text => stdout text = Ok tt) texts.
Proof.
  rewrite <- print_report_returns. split.
  - intros [printed [Htexts Hall]%print_report_stream]. split; [eauto|].
    intros texts Htexts'. rewrite Htexts in Htexts'.
    apply Ok_inj in Htexts'. by subst texts.
  - intros [[texts Htexts] Hall]. exists texts.
    apply print_report_stream. split; [done|]. by apply Hall.
Qed.

Lemma all_strings_names (l : list string) : all_strings (VStr <$> l) = true.
Proof. by induction l. Qed.

Lemma fallback_issue_printable (rs : list report) (k : string) (i : ReviewIssue) :
  kept_issue rs k i -> printable_issue i = true /\ truthy (suggested_fix i) = false.
Proof.
  intros (first & sev & conf & n & _ & _ & Hi).
  apply consensus_issue_fields in Hi as (_ & _ & Hby & _ & Hfix).
  unfold printable_issue. rewrite Hby, Hfix. simpl. split; [|done].
  by rewrite all_strings_names.
Qed.

Lemma print_issue_without_fix (i : ReviewIssue) (lines : list string) :
  truthy (suggested_fix i) = false ->
  print_issue takes_all i = Ok lines -> length lines = 5.
Proof.
  rewrite print_issue_takes_all. intros Hfix H.
  apply bind_Ok_inv in H as (names & _ & H). rewrite Hfix in H.
  cbn [bind] in H. apply Ok_inj in H. by subst lines.
Qed.

(** X17. When the arbiter's call fails, no join and no slice of
    [print_report] fails on the report of the run: the report has its
    texts, one for the box, and with issues one for the heading and five
    per issue, never a Fix line; a stream prints the report, and then
    these texts, exactly when it takes each of them. *)
Theorem fallback_report_is_printed (self : MultiModelReviewOrchestrator)
    (replies : string -> reply) (e : exn) (now dir : string) (r : ReviewReport) :
  review self replies (Raise e) now dir = Ok r ->
  exists texts,
    print_report takes_all r = Ok texts /\
    length texts
    = match issues r with [] => 1 | _ => 2 + 5 * length (issues r) end /\
    forall stdout printed,
      print_report stdout r = Ok printed
      <-> printed = texts /\ Forall (fun text => stdout text = Ok tt) texts.
Proof.
  intros (found & Hfound & ->)%review_Ok_found.
  rewrite filter_false_positives_arbiter_down in Hfound.
  destruct (consensus_filter_shape _ _ Hfound) as (rs & _ & Hall & _).
  assert (Hprint : Forall (fun i => printable_issue i = true /\
                                    truthy (suggested_fix i) = false) found).
  { eapply Forall2_range; [exact Hall|]. apply fallback_issue_printable. }
  assert (Htexts : exists texts,
            print_report takes_all (build_report now dir (length (reviewers self))
                                      found) = Ok texts /\
            length texts
            = match found with [] => 1 | _ => 2 + 5 * length found end).
  { unfold print_report, takes_all at 1 2, build_report; simpl.
    destruct found as [|i found]; [eauto|].
    set (l := i :: found) in *. clearbody l. clear Hall Hfound.
    assert (Hblocks : exists blocks,
              map_res (print_issue takes_all) l = Ok blocks /\
              length (concat blocks) = 5 * length l).
    { induction Hprint as [|j l [Hj Hfix] _ (blocks & Hblocks & Hlen)].
      - exists []. by split.
      - apply print_issue_returns in Hj as [lines Hlines].
        exists (lines :: blocks). simpl. rewrite Hlines, Hblocks. split; [done|].
        rewrite length_app, Hlen, (print_issue_without_fix _ _ Hfix Hlines).
        simpl. lia. }
    destruct Hblocks as (blocks & -> & Hlen). eexists. split; [reflexivity|].
    simpl. rewrite Hlen. lia. }
  destruct Htexts as (texts & Htexts & Hlen).
  exists texts. split; [done|]. split; [done|]. intros stdout printed.
  rewrite print_report_stream, Htexts. split.
  - intros [Heq Hok]. apply Ok_inj in Heq. by subst printed.
  - by intros [-> Hok].
Qed.

Lemma fallback_report_is_printed_witness :
  exists r texts,
    review scenario_orchestrator scenario_replies (Raise OSError)
      "2026-01-01T00:00:00" "docs/specs/order" = Ok r /\
    print_report takes_all r = Ok texts /\
    length texts
    = match issues r with [] => 1 | _ => 2 + 5 * length (issues r) end /\
    forall stdout printed,
      print_report stdout r = Ok printed
      <-> printed = texts /\ Forall (fun text => stdout text = Ok tt) texts.
Proof.
  destruct (review scenario_orchestrator scenario_replies (Raise OSError)
              "2026-01-01T00:00:00" "docs/specs/order")
    as [r|e] eqn:Hr; [|vm_compute in Hr; discriminate].
  destruct (fallback_report_is_printed _ _ _ _ _ _ Hr) as (texts & H).
  exists r, texts. split; [reflexivity|exact H].
Defined.

(** A verdict whose entry gives a number for [detected_by] is parsed, and
    the report it gives cannot be printed. *)
Example unprintable_verdict :
  match review scenario_orchestrator scenario_replies
          (Ok (VDict [("confirmed_issues",
                       VList [VDict [("description", VStr "total is stale");
                                     ("detected_by", VInt 3)]])]))
          "2026-01-01T00:00:00" "docs/specs/order" with
  | Ok r => print_report utf8_strict r
  | Raise e => Ok []
  end = Raise TypeError.
Proof. vm_compute. reflexivity. Qed.

(** Two reviewers agree on a finding whose description is a lone surrogate:
    the vote count gives a warning, and a strict UTF-8 stream raises on the
    first text of the issue. *)
Example surrogate_is_not_printed :
  match review two_reviewers
          (fun _ => answered (response [raw "spec_program_mismatch" "Order#total"
                                            lone_surrogate]))
          (Raise OSError) "2026-01-01T00:00:00" "docs/specs/order" with
  | Ok r => (length (issues r), print_report utf8_strict r)
  | Raise e => (0, Ok [])
  end = (1, Raise UnicodeEncodeError).
Proof. vm_compute. reflexivity. Qed.

(** ** Keys and types *)

Lemma IssueType_value_no_colon (ty : IssueType) :
  str_contains ":" (IssueType_value ty) = false.
Proof. by destruct ty. Qed.

Lemma split_at_colon (t1 t2 l1 l2 : string) :
  str_contains ":" t1 = false ->
  str_contains ":" t2 = false ->
  t1 +:+ ":" +:+ l1 = t2 +:+ ":" +:+ l2 ->
  t1 = t2 /\ l1 = l2.
Proof.
  revert t2; induction t1 as [|c1 t1 IH]; intros [|c2 t2] H1 H2 Heq;
    simpl in Heq.
  - injection Heq as Hl. by subst.
  - injection Heq as Hc Hl. subst c2. simpl in H2. discriminate.
  - injection Heq as Hc Hl. subst c1. simpl in H1. discriminate.
  - injection Heq as Hc Hl. subst c2. cbn [str_contains] in H1, H2.
    apply orb_false_iff in H1 as [_ H1]. apply orb_false_iff in H2 as [_ H2].
    destruct (IH _ H1 H2 Hl) as [-> ->]. done.
Qed.

(** X18. For raw findings whose [type] is the value of an [IssueType] and
    whose [location] is a text, the key groups exactly: two findings have
    the same key if and only if they have the same type and the same
    location, whatever characters the location holds. *)
Theorem key_groups_typed_findings_exactly (d1 d2 : list (string * value))
    (ty1 ty2 : IssueType) (l1 l2 : string) :
  dict_lookup d1 "type" = Some (VStr (IssueType_value ty1)) ->
  dict_lookup d1 "location" = Some (VStr l1) ->
  dict_lookup d2 "type" = Some (VStr (IssueType_value ty2)) ->
  dict_lookup d2 "location" = Some (VStr l2) ->
  (issue_key (VDict d1) = issue_key (VDict d2) <-> ty1 = ty2 /\ l1 = l2).
Proof.
  intros Ht1 Hl1 Ht2 Hl2. rewrite !issue_key_dict, Ht1, Hl1, Ht2, Hl2. simpl.
  split.
  - intros Heq. apply Ok_inj in Heq.
    apply split_at_colon in Heq as [Hty ->];
      [|apply IssueType_value_no_colon..].
    split; [|done]. by destruct ty1, ty2.
  - by intros [-> ->].
Qed.

Lemma key_groups_typed_findings_exactly_witness :
  issue_key order_total = issue_key order_cancel
  <-> SPEC_PROGRAM_MISMATCH = PROGRAM_TEST_GAP /\ "Order#total" = "Order#cancel".
Proof.
  apply (key_groups_typed_findings_exactly
           [("type", VStr "spec_program_mismatch");
            ("location", VStr "Order#total");
            ("description", VStr "total is not recomputed")]
           [("type", VStr "program_test_gap");
            ("location", VStr "Order#cancel");
            ("description", VStr "cancel has no test")]);
    reflexivity.
Defined.

(** ** When the review returns *)

Lemma status_loop_returns (all_findings : list finding) :
  for_each model_status all_findings tt = Ok tt
  <-> forallb countable all_findings = true.
Proof.
  induction all_findings as [|f fs IH]; simpl; [done|].
  rewrite andb_true_iff, <- IH.
  destruct f as [model reason|model v]; simpl; [tauto|].
  destruct (py_get v "issues" (VList [])) as [reported|e]; simpl;
    [|split; [discriminate|by intros [? _]]].
  destruct (py_len reported) as [n|e]; simpl;
    [tauto|split; [discriminate|by intros [? _]]].
Qed.

Lemma readable_countable (f : finding) : readable f = true -> countable f = true.
Proof.
  destruct f as [model reason|model v]; simpl; [done|].
  destruct (py_get v "issues" (VList [])) as [reported|e]; [|done].
  by destruct reported.
Qed.

(** X20. With the arbiter down, [review] ends in a report exactly when the
    vote count returns on the gathered results: the status loop before it
    raises on no result on which the vote count would not raise too. *)
Theorem review_returns_iff_fallback_returns (self : MultiModelReviewOrchestrator)
    (replies : string -> reply) (e : exn) (now dir : string) :
  (exists r, review self replies (Raise e) now dir = Ok r)
  <-> (exists out, _consensus_filter (dispatch self replies) = Ok out).
Proof.
  split.
  - intros [r (found & Hfound & _)%review_Ok_found].
    rewrite filter_false_positives_arbiter_down in Hfound. eauto.
  - intros [out Hout].
    assert (Hstatus : for_each model_status (dispatch self replies) tt = Ok tt).
    { apply status_loop_returns.
      destruct (consensus_filter_Ok _ _ Hout) as (rs & ks & Hrs & _).
      assert (Hread : forallb readable (dispatch self replies) = true).
      { apply all_reports_returns. eauto. }
      apply forallb_forall. intros f Hf. apply readable_countable.
      by apply (proj1 (forallb_forall _ _) Hread). }
    unfold review. cbv zeta. rewrite Hstatus. cbn [bind].
    rewrite filter_false_positives_arbiter_down, Hout. simpl. eauto.
Qed.

(** ** Who can be cited after [--models] *)

(** [--models] with the empty text selects nothing: the run is the one
    without the option. *)
Example empty_models_keeps_all :
  forall config_file available replies arbiter_reply now dir,
    main config_file (Some EmptyString) available replies arbiter_reply now dir
    = main config_file None available replies arbiter_reply now dir.
Proof. reflexivity. Qed.

(** X21. In a run of [main] with [--models] given a text that is not empty
    and the arbiter down, every name in the [detected_by] of an issue is one
    of the pieces of that text between its commas and one of the five
    backends. *)
Theorem fallback_cites_selected_models (config_file : option value)
    (models : string) (available : string -> bool)
    (replies : string -> reply) (e : exn) (now dir : string) (r : ReviewReport) :
  models <> EmptyString ->
  main config_file (Some models) available replies (Raise e) now dir = Ok r ->
  Forall
    (fun i =>
       exists voters,
         detected_by i = VList (VStr <$> voters) /\
         forall m, m ∈ voters -> m ∈ split_comma models /\ m ∈ reviewer_names)
    (issues r).
Proof.
  intros Hgiven (self & Hrev & Hsub & Hsel)%main_Ok_review.
  specialize (Hsel models eq_refl Hgiven). rewrite Forall_forall in Hsel.
  apply review_Ok_found in Hrev as (found & Hfound & ->).
  rewrite filter_false_positives_arbiter_down in Hfound.
  unfold build_report; simpl.
  eapply Forall_impl; [exact (dispatch_votes_cite _ _ _ Hfound)|].
  intros i (voters & Hby & _ & Hvoters). exists voters. split; [done|].
  intros m Hm. destruct (Hvoters m Hm) as (rv & v & Hrv & _ & <- & _).
  split; [by apply Hsel|].
  eapply elem_of_sublist; [|exact Hsub]. by apply list_elem_of_fmap_2.
Qed.

Lemma fallback_cites_selected_models_witness :
  exists r,
    "chatgpt,gemini" <> EmptyString /\
    main None (Some "chatgpt,gemini") no_claude shared_replies
      (Raise OSError) "2026-01-01T00:00:00" "docs/specs/order" = Ok r /\
    Forall
      (fun i =>
         exists voters,
           detected_by i = VList (VStr <$> voters) /\
           forall m, m ∈ voters ->
                     m ∈ split_comma "chatgpt,gemini" /\ m ∈ reviewer_names)
      (issues r).
Proof.
  destruct (main None (Some "chatgpt,gemini") no_claude shared_replies
              (Raise OSError) "2026-01-01T00:00:00" "docs/specs/order")
    as [r|e] eqn:Hr; [|vm_compute in Hr; discriminate].
  exists r. split; [discriminate|]. split; [reflexivity|].
  apply (fallback_cites_selected_models None "chatgpt,gemini" no_claude
           shared_replies OSError "2026-01-01T00:00:00" "docs/specs/order" r);
    [discriminate|exact Hr].
Defined.

(** ** A run in which nobody answers *)

Lemma dispatch_all_failed (self : MultiModelReviewOrchestrator)
    (replies : string -> reply) :
  (forall rv, rv ∈ reviewers self -> enabled rv = true ->
              exists reason, replies (name rv) = failed reason) ->
  Forall (fun f => has_findings f = false) (dispatch self replies).
Proof.
  intros Hfail. unfold dispatch. apply Forall_fmap, Forall_forall.
  intros rv [Hen Hrv]%list_elem_of_filter. simpl.
  destruct (Hfail rv Hrv Hen) as [reason ->]. done.
Qed.

Lemma filter_none {A : Type} (P : A -> Prop) `{forall x, Decision (P x)}
    (l : list A) :
  Forall (fun x => ~ P x) l -> filter P l = [].
Proof.
  induction 1 as [|x l Hx _ IH]; [done|].
  by rewrite filter_cons_False.
Qed.

(** X22. When the arbiter is down and no reviewer answers, each being
    disabled or having failed, the run still ends in a report: it has no
    issue, [passed] equals [total_checks], ten for every reviewer of the
    list, the status is PASS and the exit code is 0. *)
Theorem silent_run_passes (self : MultiModelReviewOrchestrator)
    (replies : string -> reply) (e : exn) (now dir : string) :
  (forall rv, rv ∈ reviewers self -> enabled rv = true ->
              exists reason, replies (name rv) = failed reason) ->
  exists r,
    review self replies (Raise e) now dir = Ok r /\
    issues r = [] /\
    passed r = total_checks r /\
    total_checks r = (10 * Z.of_nat (length (reviewers self)))%Z /\
    report_status r = "✅ PASS" /\
    exit_code r = 0%Z.
Proof.
  intros Hfail. pose proof (dispatch_all_failed _ _ Hfail) as Hall.
  assert (Hstatus : for_each model_status (dispatch self replies) tt = Ok tt).
  { apply status_loop_returns, forallb_forall. intros f Hf.
    rewrite Forall_forall in Hall.
    specialize (Hall f (proj2 (list_elem_of_In _ _) Hf)). by destruct f. }
  assert (Hnone : _consensus_filter (dispatch self replies) = Ok []).
  { unfold _consensus_filter. rewrite <- tally_skips_errors.
    rewrite filter_none; [done|].
    eapply Forall_impl; [exact Hall|]. intros f Hf. by rewrite Hf. }
  eexists. split.
  - unfold review. cbv zeta. rewrite Hstatus. cbn [bind].
    rewrite filter_false_positives_arbiter_down, Hnone. reflexivity.
  - unfold build_report, report_status, exit_code; simpl.
    repeat split; lia.
Qed.

Lemma silent_run_passes_witness :
  exists r,
    review scenario_orchestrator (fun _ => failed "timeout") (Raise OSError)
      "2026-01-01T00:00:00" "docs/specs/order" = Ok r /\
    issues r = [] /\
    passed r = total_checks r /\
    total_checks r
    = (10 * Z.of_nat (length (reviewers scenario_orchestrator)))%Z /\
    report_status r = "✅ PASS" /\
    exit_code r = 0%Z.
Proof.
  apply (silent_run_passes scenario_orchestrator (fun _ => failed "timeout")).
  intros rv _ _. by exists "timeout".
Defined.
